(** * EC2 instance manager: the translation, directory and lifecycle contract

    A shallow embedding of [app/models.py], [app/services.py] and
    [app/routers/ec2.py].  Provider records are Python values, the boto3
    client is an interface whose calls are logged, and exceptions are
    threaded explicitly together with the state of the provider. *)

From stdpp Require Import base option list strings gmap fin_maps.
From Stdlib Require Import ZArith.

Open Scope string_scope.
Set Warnings "-register-all".

(** ** Python values

    The values a boto3 response is made of: [None], strings, integers,
    [datetime] objects (a timestamp), lists and dictionaries with string
    keys. *)

Inductive pyval : Type :=
  | VNone
  | VStr (s : string)
  | VInt (n : Z)
  | VTime (t : Z)
  | VList (l : list pyval)
  | VDict (d : gmap string pyval).

(** The exceptions that occur: the two the source names ([ClientError] of
    botocore with its message, [HTTPException] of fastapi with its status
    code and detail), the builtin ones raised by subscripting, iteration and
    attribute access, the validation error of pydantic, and any other
    exception a provider call raises (botocore's [NoCredentialsError],
    [EndpointConnectionError], ...), kept by name. *)

Inductive exn : Type :=
  | ClientError (msg : string)
  | HTTPException (status_code : Z) (detail : string)
  | KeyError (key : pyval)
  | IndexError
  | TypeError
  | AttributeError
  | ValidationError
  | OtherError (name : string).

Inductive outcome (A : Type) : Type :=
  | Return (a : A)
  | Raise (e : exn).
Arguments Return {A} a.
Arguments Raise {A} e.

#[global] Instance outcome_ret : MRet outcome := fun A a => Return a.
#[global] Instance outcome_bind : MBind outcome := fun A B f m =>
  match m with
  | Return a => f a
  | Raise e => Raise e
  end.

(** [for x in l: ys.append(f(x))]: the first exception ends the loop. *)
Fixpoint for_each {A B : Type} (f : A → outcome B) (l : list A) : outcome (list B) :=
  match l with
  | [] => Return []
  | x :: l' => y ← f x; ys ← for_each f l'; Return (y :: ys)
  end.

Module py.

(** [v[key]] for a string [key]. *)
Definition getitem (v : pyval) (key : string) : outcome pyval :=
  match v with
  | VDict d =>
      match d !! key with
      | Some x => Return x
      | None => Raise (KeyError (VStr key))
      end
  | _ => Raise TypeError
  end.

(** [v[0]]. *)
Definition getitem0 (v : pyval) : outcome pyval :=
  match v with
  | VList l =>
      match l with
      | x :: _ => Return x
      | [] => Raise IndexError
      end
  | VStr s =>
      match s with
      | String c _ => Return (VStr (String c ""))
      | "" => Raise IndexError
      end
  | VDict d => Raise (KeyError (VInt 0))
  | _ => Raise TypeError
  end.

(** [v.get(key, default)]: only a dict has the method. *)
Definition get (v : pyval) (key : string) (dflt : pyval) : outcome pyval :=
  match v with
  | VDict d => Return (default dflt (d !! key))
  | _ => Raise AttributeError
  end.

Fixpoint chars (s : string) : list pyval :=
  match s with
  | "" => []
  | String c s' => VStr (String c "") :: chars s'
  end.

(** The elements [for x in v] runs over.  A dict yields its keys; their
    order is the one of [map_to_list] here, which no caller can observe:
    each loop of the source fails on the first element when it is a
    string, in the same way whatever the string. *)
Definition iter (v : pyval) : outcome (list pyval) :=
  match v with
  | VList l => Return l
  | VStr s => Return (chars s)
  | VDict d => Return (VStr <$> (map_to_list d).*1)
  | _ => Raise TypeError
  end.

(** Truth value, as [if v:] and [not v] take it. *)
Definition truthy (v : pyval) : bool :=
  match v with
  | VNone => false
  | VStr s => negb (String.eqb s "")
  | VInt n => negb (Z.eqb n 0)
  | VTime _ => true
  | VList l => match l with [] => false | _ => true end
  | VDict d => negb (Nat.eqb (size d) 0)
  end.

(** Truth value of an [Optional[str]] query parameter. *)
Definition truthy_opt (o : option string) : bool :=
  match o with
  | Some s => negb (String.eqb s "")
  | None => false
  end.

End py.

(** [for x in l: body], the loop body acting on the variables [st] the loop
    updates; an exception leaves the loop. *)
Fixpoint for_in {A ST : Type} (l : list A) (body : A → ST → outcome ST) (st : ST)
  : outcome ST :=
  match l with
  | [] => Return st
  | x :: l' => st' ← body x st; for_in l' body st'
  end.

(** Keys of the dict the tag comprehension builds: the hashable values. *)
Inductive hkey : Type :=
  | HNone
  | HStr (s : string)
  | HInt (n : Z)
  | HTime (t : Z).

#[global] Instance hkey_eq_dec : EqDecision hkey.
Proof. solve_decision. Defined.

#[global] Program Instance hkey_countable : Countable hkey :=
  inj_countable'
    (fun k => match k with
              | HNone => inl ()
              | HStr s => inr (inl s)
              | HInt n => inr (inr (inl n))
              | HTime t => inr (inr (inr t))
              end)
    (fun x => match x with
              | inl _ => HNone
              | inr (inl s) => HStr s
              | inr (inr (inl n)) => HInt n
              | inr (inr (inr t)) => HTime t
              end) _.
Next Obligation. by intros []. Qed.

Module models.

(** [class EC2Instance(BaseModel)]. *)
Record EC2Instance : Type := {
  instance_id : string;
  instance_type : string;
  state : string;
  public_ip : option string;
  private_ip : option string;
  name : option string;
  environment : option string;
  launch_time : Z
}.

(** Validation of one field by its annotation, in the strict reading: a
    field takes a value of the declared type and nothing else.  The lax
    mode of pydantic accepts more, an integer or an ISO-8601 string for
    [launch_time] among them; those records are rejected here, so what is
    proved of accepted records is proved of fewer records, and no statement
    below concludes a rejection from the type of a value. *)
Definition validate_str (v : pyval) : outcome string :=
  match v with
  | VStr s => Return s
  | _ => Raise ValidationError
  end.

Definition validate_optional_str (v : pyval) : outcome (option string) :=
  match v with
  | VStr s => Return (Some s)
  | VNone => Return None
  | _ => Raise ValidationError
  end.

Definition validate_datetime (v : pyval) : outcome Z :=
  match v with
  | VTime t => Return t
  | _ => Raise ValidationError
  end.

(** [EC2Instance(instance_id=..., ...)], all eight keywords given. *)
Definition EC2Instance_init
    (instance_id instance_type state public_ip private_ip name environment
     launch_time : pyval) : outcome EC2Instance :=
  instance_id ← validate_str instance_id;
  instance_type ← validate_str instance_type;
  state ← validate_str state;
  public_ip ← validate_optional_str public_ip;
  private_ip ← validate_optional_str private_ip;
  name ← validate_optional_str name;
  environment ← validate_optional_str environment;
  launch_time ← validate_datetime launch_time;
  Return (Build_EC2Instance instance_id instance_type state public_ip
            private_ip name environment launch_time).

End models.

(** [class EC2InstanceRequest(BaseModel)]; its fields share names with those
    of [EC2Instance], hence the module of its own. *)
Module EC2InstanceRequest.

Record t : Type := {
  name : string;
  instance_type : string;
  ami_id : string;
  key_pair_name : string;
  security_group_id : string;
  environment : string
}.

(** [EC2InstanceRequest(name=..., ...)] with [environment] given or left
    out: [environment: str = "development"]. *)
Definition init (name instance_type ami_id key_pair_name security_group_id : string)
    (environment : option string) : t :=
  Build_t name instance_type ami_id key_pair_name security_group_id
    (default "development" environment).

End EC2InstanceRequest.

(** ** The provider client and the effects of a request

    [self.ec2_client] is a boto3 client.  Its calls are the only access to
    the provider; each takes the provider from one state to the next and
    either returns a response or raises.  A request runs in a world made of
    the provider, the log of the calls made so far, and the clock. *)

Inductive api_call : Type :=
  | describe_instances (InstanceIds : option (list string))
  | start_instances (InstanceIds : list string)
  | stop_instances (InstanceIds : list string)
  | terminate_instances (InstanceIds : list string).

Definition mutating (c : api_call) : bool :=
  match c with
  | describe_instances _ => false
  | start_instances _ | stop_instances _ | terminate_instances _ => true
  end.

Class Ec2Client (P : Type) : Type :=
  call_api : api_call → P → outcome pyval * P.

Record World (P : Type) : Type := {
  provider : P;
  calls : list api_call;
  clock : Z
}.
Arguments provider {P} w.
Arguments calls {P} w.
Arguments clock {P} w.
Arguments Build_World {P} provider calls clock.

Definition M (P A : Type) : Type := World P → outcome A * World P.

#[global] Instance M_ret {P} : MRet (M P) := fun A a w => (Return a, w).
#[global] Instance M_bind {P} : MBind (M P) := fun A B f m w =>
  match m w with
  | (Return a, w') => f a w'
  | (Raise e, w') => (Raise e, w')
  end.

Definition raise {P A} (e : exn) : M P A := fun w => (Raise e, w).

Definition lift {P A} (o : outcome A) : M P A := fun w => (o, w).

(** One call of a client method. *)
Definition invoke {P} `{Ec2Client P} (c : api_call) : M P pyval := fun w =>
  let (r, p') := call_api c (provider w) in
  (r, Build_World p' (calls w ++ [c])%list (clock w)).

(** [datetime.utcnow()] *)
Definition utcnow {P} : M P Z := fun w => (Return (clock w), w).

(** [try: body / except ClientError as e: handler(str(e))]; any other
    exception passes through. *)
Definition try_except_ClientError {P A} (body : M P A) (handler : string → M P A)
  : M P A := fun w =>
  match body w with
  | (Raise (ClientError msg), w') => handler msg w'
  | r => r
  end.

(** The keyword arguments of [run_instances], as [create_instance] passes
    them. *)
Record tag_specification : Type := {
  ResourceType : string;
  Tags : list (string * string)
}.

Record run_instances_kwargs : Type := {
  ImageId : string;
  InstanceType : string;
  KeyName : string;
  SecurityGroupIds : list string;
  MinCount : Z;
  MaxCount : Z;
  TagSpecifications : list tag_specification
}.

(** The launch call of the client.  The log [calls] is the one of the
    describe and power-state calls; a launch is told by its keyword
    arguments, which are the argument of [run_instances]. *)
Class Ec2Launcher (P : Type) : Type :=
  run_instances : run_instances_kwargs → P → outcome pyval * P.

Definition launch {P} `{Ec2Launcher P} (kwargs : run_instances_kwargs) : M P pyval :=
  fun w =>
    let (r, p') := run_instances kwargs (provider w) in
    (r, Build_World p' (calls w) (clock w)).

(** [try: body / except Exception as e: handler(e)] *)
Definition try_except_Exception {P A} (body : M P A) (handler : exn → M P A)
  : M P A := fun w =>
  match body w with
  | (Raise e, w') => handler e w'
  | r => r
  end.

(** ** [app/services.py] *)

Module services.

(** [hash(v)], taken when [v] becomes a dict key: lists and dicts are
    unhashable. *)
Definition hash_key (v : pyval) : outcome hkey :=
  match v with
  | VNone => Return HNone
  | VStr s => Return (HStr s)
  | VInt n => Return (HInt n)
  | VTime t => Return (HTime t)
  | VList _ | VDict _ => Raise TypeError
  end.

(** [{tag['Key']: tag['Value'] for tag in ...}]: one store per tag, a
    later store to a key replacing the earlier one. *)
Definition tags_of (tag_list : list pyval) : outcome (gmap hkey pyval) :=
  for_in tag_list
    (fun tag tags =>
       k ← py.getitem tag "Key";
       v ← py.getitem tag "Value";
       h ← hash_key k;
       Return (<[h := v]> tags))
    ∅.

(** [tags.get(key, '')] *)
Definition tags_get (tags : gmap hkey pyval) (key : string) (dflt : pyval) : pyval :=
  default dflt (tags !! HStr key).

Definition _convert_to_ec2_instance (aws_instance : pyval) : outcome models.EC2Instance :=
  tag_list ← py.get aws_instance "Tags" (VList []) ≫= py.iter;
  tags ← tags_of tag_list;
  instance_id ← py.getitem aws_instance "InstanceId";
  instance_type ← py.getitem aws_instance "InstanceType";
  state ← py.getitem aws_instance "State" ≫= (fun st => py.getitem st "Name");
  public_ip ← py.get aws_instance "PublicIpAddress" (VStr "");
  private_ip ← py.get aws_instance "PrivateIpAddress" (VStr "");
  let name := tags_get tags "Name" (VStr "") in
  let environment := tags_get tags "Environment" (VStr "") in
  launch_time ← py.getitem aws_instance "LaunchTime";
  models.EC2Instance_init instance_id instance_type state public_ip private_ip
    name environment launch_time.

Section EC2Service.
Context {P : Type} `{Ec2Client P}.

Definition get_instance (instance_id : string) : M P models.EC2Instance :=
  try_except_ClientError
    (response ← invoke (describe_instances (Some [instance_id]));
     reservations ← lift (py.getitem response "Reservations");
     if negb (py.truthy reservations) then
       raise (HTTPException 404 ("Instance " ++ instance_id ++ " not found"))
     else
       instance ← lift (reservation ← py.getitem0 reservations;
                        instances ← py.getitem reservation "Instances";
                        py.getitem0 instances);
       lift (_convert_to_ec2_instance instance))
    (fun e => raise (HTTPException 404
                ("Failed to get instance " ++ instance_id ++ ": " ++ e))).

Definition list_instances : M P (list models.EC2Instance) :=
  try_except_ClientError
    (response ← invoke (describe_instances None);
     reservations ← lift (py.getitem response "Reservations" ≫= py.iter);
     lift (for_in reservations
             (fun reservation instances =>
                rs ← py.getitem reservation "Instances" ≫= py.iter;
                for_in rs
                  (fun instance instances =>
                     i ← _convert_to_ec2_instance instance;
                     Return (instances ++ [i])%list)
                  instances)
             []))
    (fun e => raise (HTTPException 400 ("Failed to list instances: " ++ e))).

Definition start_instance (instance_id : string) : M P models.EC2Instance :=
  try_except_ClientError
    (_ ← invoke (start_instances [instance_id]);
     get_instance instance_id)
    (fun e => raise (HTTPException 400
                ("Failed to start instance " ++ instance_id ++ ": " ++ e))).

Definition stop_instance (instance_id : string) : M P models.EC2Instance :=
  try_except_ClientError
    (_ ← invoke (stop_instances [instance_id]);
     get_instance instance_id)
    (fun e => raise (HTTPException 400
                ("Failed to stop instance " ++ instance_id ++ ": " ++ e))).

Definition terminate_instance (instance_id : string) : M P models.EC2Instance :=
  try_except_ClientError
    (_ ← invoke (terminate_instances [instance_id]);
     get_instance instance_id)
    (fun e => raise (HTTPException 400
                ("Failed to terminate instance " ++ instance_id ++ ": " ++ e))).

End EC2Service.

Section EC2Service_create.
Context {P : Type} `{Ec2Client P} `{Ec2Launcher P}.

(** [self.get_instance(instance_id)] for the identifier read from the
    launch response.  The client takes strings as identifiers; for any
    other value it refuses the parameter before any request is made
    (botocore's [ParamValidationError]). *)
Definition get_launched (instance_id : pyval) : M P models.EC2Instance :=
  match instance_id with
  | VStr s => get_instance s
  | _ => raise (OtherError "ParamValidationError")
  end.

Definition create_instance (instance_request : EC2InstanceRequest.t)
  : M P models.EC2Instance :=
  try_except_ClientError
    (response ← launch
       {| ImageId := EC2InstanceRequest.ami_id instance_request;
          InstanceType := EC2InstanceRequest.instance_type instance_request;
          KeyName := EC2InstanceRequest.key_pair_name instance_request;
          SecurityGroupIds := [EC2InstanceRequest.security_group_id instance_request];
          MinCount := 1;
          MaxCount := 1;
          TagSpecifications :=
            [{| ResourceType := "instance";
                Tags := [("Name", EC2InstanceRequest.name instance_request);
                         ("Environment",
                          EC2InstanceRequest.environment instance_request)] |}] |};
     instance_id ← lift (instances ← py.getitem response "Instances";
                         instance ← py.getitem0 instances;
                         py.getitem instance "InstanceId");
     get_launched instance_id)
    (fun e => raise (HTTPException 400 ("Failed to create instance: " ++ e))).

End EC2Service_create.

End services.

(** ** [app/routers/ec2.py] *)

Module ec2.

(** The dict [get_status_summary] returns. *)
Record summary : Type := {
  total_instances : nat;
  status_breakdown : gmap string nat;
  timestamp : Z
}.

Section handlers.
Context {P : Type} `{Ec2Client P}.

Definition list_instances (environment instance_type : option string)
  : M P (list models.EC2Instance) :=
  instances ← services.list_instances;
  let instances :=
    if py.truthy_opt environment
    then filter (fun i => models.environment i = environment) instances
    else instances in
  let instances :=
    if py.truthy_opt instance_type
    then filter (fun i => Some (models.instance_type i) = instance_type) instances
    else instances in
  mret instances.

Definition get_instance (instance_id : string) : M P models.EC2Instance :=
  services.get_instance instance_id.

Definition start_instance (instance_id : string) : M P models.EC2Instance :=
  services.start_instance instance_id.

Definition stop_instance (instance_id : string) : M P models.EC2Instance :=
  services.stop_instance instance_id.

Definition terminate_instance (instance_id : string) : M P models.EC2Instance :=
  services.terminate_instance instance_id.

Definition get_status_summary : M P summary :=
  instances ← services.list_instances;
  let status_count :=
    foldl (fun status_count instance =>
             <[models.state instance :=
                 default 0 (status_count !! models.state instance) + 1]>
               status_count)
          ∅ instances in
  now ← utcnow;
  mret {| total_instances := length instances;
          status_breakdown := status_count;
          timestamp := now |}.

Definition update_instance_tags (instance_id : string) (tags : gmap string pyval)
  : M P models.EC2Instance :=
  raise (HTTPException 501 "Tag update functionality not implemented yet").

End handlers.

Section create_handler.
Context {P : Type} `{Ec2Client P} `{Ec2Launcher P}.

(** [str(e)] of the exception caught is the text the libraries give it. *)
Context (str : exn → string).

Definition create_instance (request : EC2InstanceRequest.t) : M P models.EC2Instance :=
  try_except_Exception
    (services.create_instance request)
    (fun e => raise (HTTPException 400 ("Failed to create instance: " ++ str e))).

End create_handler.

Section tags_route.
Context {P : Type} `{Ec2Client P}.

(** The route [POST /{instance_id}/tags].  The parameter [tags: dict] is the
    request body: the framework validates it before it calls the handler,
    and a request without body, or with a body that is not a JSON object,
    fails that validation (the 422 answer) and never reaches the handler. *)
Definition post_tags (instance_id : string) (body : option pyval)
  : M P models.EC2Instance :=
  match body with
  | Some (VDict tags) => update_instance_tags instance_id tags
  | _ => raise ValidationError
  end.

End tags_route.

End ec2.


(** ** A test double of the provider

    It holds the records it reports, one reservation per record, and may be
    set to raise on every call.  Starting, stopping and terminating rewrite
    the [State] of the records addressed. *)

Module fake.

Record provider : Type := {
  instances : list pyval;
  broken : option exn
}.

Definition has_id (ids : list string) (r : pyval) : bool :=
  match py.getitem r "InstanceId" with
  | Return (VStr s) => bool_decide (s ∈ ids)
  | _ => false
  end.

Definition response (rs : list pyval) : pyval :=
  VDict {[ "Reservations" :=
             VList ((fun r => VDict {[ "Instances" := VList [r] ]}) <$> rs) ]}.

Definition set_state (ids : list string) (s : string) (r : pyval) : pyval :=
  match r with
  | VDict d =>
      if has_id ids r
      then VDict (<["State" := VDict {[ "Name" := VStr s ]}]> d)
      else r
  | _ => r
  end.

Definition transition (ids : list string) (s : string) (p : provider) : provider :=
  {| instances := set_state ids s <$> instances p; broken := broken p |}.

#[global] Instance client : Ec2Client provider := fun c p =>
  match broken p with
  | Some e => (Raise e, p)
  | None =>
      match c with
      | describe_instances None => (Return (response (instances p)), p)
      | describe_instances (Some ids) =>
          (Return (response (filter (fun r => has_id ids r) (instances p))), p)
      | start_instances ids => (Return (VDict ∅), transition ids "pending" p)
      | stop_instances ids => (Return (VDict ∅), transition ids "stopping" p)
      | terminate_instances ids => (Return (VDict ∅), transition ids "shutting-down" p)
      end
  end.

Definition fields (id ty st : string) (tags : list (string * string))
  : gmap string pyval :=
  list_to_map [
    ("InstanceId", VStr id);
    ("InstanceType", VStr ty);
    ("State", VDict (list_to_map [("Code", VInt 16); ("Name", VStr st)]));
    ("Tags", VList ((fun kv => VDict (list_to_map [("Key", VStr kv.1);
                                                  ("Value", VStr kv.2)])) <$> tags));
    ("LaunchTime", VTime 1700000000)].

Definition record (id ty st : string) (tags : list (string * string)) : pyval :=
  VDict (fields id ty st tags).

(** The two instances of the end-to-end scenario. *)
Definition i1 : pyval := record "i-1" "t2.micro" "running" [("Environment", "prod")].
Definition i2 : pyval := record "i-2" "t2.large" "stopped" [("Environment", "dev")].

(** A record without launch time, one without identifier, one with an
    empty identifier, and one with two [Name] tags. *)
Definition no_launch_time : gmap string pyval :=
  delete "LaunchTime" (fields "i-9" "t2.micro" "running" []).
Definition no_id : gmap string pyval :=
  delete "InstanceId" (fields "i-9" "t2.micro" "running" []).
Definition empty_id : pyval := record "" "t2.micro" "running" [].
Definition renamed : gmap string pyval :=
  fields "i-3" "t2.micro" "running" [("Name", "old"); ("Name", "new")].

(** A record whose public address is [None] and whose [Name] tag has the
    value [None]. *)
Definition nulls : gmap string pyval :=
  <["PublicIpAddress" := VNone]>
    (<["Tags" := VList [VDict (list_to_map [("Key", VStr "Name"); ("Value", VNone)])]]>
       (fields "i-4" "t2.micro" "running" [])).

Definition world (rs : list pyval) (broken : option exn) : World provider :=
  Build_World {| instances := rs; broken := broken |} [] 0.

(** The world of the end-to-end scenario, and the same with the network
    down. *)
Definition two : World provider := world [i1; i2] None.
Definition unreachable : World provider :=
  world [i1; i2] (Some (OtherError "EndpointConnectionError")).

(** Launching adds a pending record with the tags asked for; the test
    double names it [i-new]. *)
#[global] Instance launcher : Ec2Launcher provider := fun kwargs p =>
  match broken p with
  | Some e => (Raise e, p)
  | None =>
      (Return (VDict {[ "Instances" := VList [VDict {[ "InstanceId" := VStr "i-new" ]}] ]}),
       {| instances :=
            (instances p ++ [record "i-new" (InstanceType kwargs) "pending"
                               (concat (Tags <$> TagSpecifications kwargs))])%list;
          broken := None |})
  end.

(** A rendering of exceptions for the examples; it is not the text
    Python's [str] gives, which no statement depends on. *)
Definition str (e : exn) : string :=
  match e with
  | ClientError msg => msg
  | HTTPException _ detail => detail
  | OtherError name => name
  | _ => "error"
  end.

(** A provider that refuses every call with a [ClientError]. *)
Definition refusing : World provider :=
  world [i1; i2] (Some (ClientError "UnauthorizedOperation")).

Definition request : EC2InstanceRequest.t :=
  EC2InstanceRequest.init "web" "t3.small" "ami-1" "key" "sg-1" None.

End fake.

(** ** Notions the statements use *)

(** The exceptions the translation of a record itself raises; none of them
    is a [ClientError] or an [HTTPException]. *)
Definition translation_error (e : exn) : Prop :=
  match e with
  | KeyError _ | IndexError | TypeError | AttributeError | ValidationError => True
  | ClientError _ | HTTPException _ _ | OtherError _ => False
  end.

(** A record lacks a required field: the identifier, the type, the state
    name inside [State], or the launch time. *)
Definition missing_required (d : gmap string pyval) : Prop :=
  d !! "InstanceId" = None ∨ d !! "InstanceType" = None ∨ d !! "State" = None
  ∨ (∃ st, d !! "State" = Some (VDict st) ∧ st !! "Name" = None)
  ∨ d !! "LaunchTime" = None.

(** [r] is a reservation holding the records [records], in that order. *)
Definition is_reservation (r : pyval) (records : list pyval) : Prop :=
  ∃ rd, r = VDict rd ∧ rd !! "Instances" = Some (VList records).

(** The world after the call [c]: the provider has moved, the call is
    logged. *)
Definition after {P : Type} `{Ec2Client P} (c : api_call) (w : World P) : World P :=
  Build_World (call_api c (provider w)).2 (calls w ++ [c])%list (clock w).

(** What [describe_instances] returned, read the way [get_instance] reads
    it: the first instance of the first reservation. *)
Definition first_record (response : pyval) : outcome pyval :=
  reservations ← py.getitem response "Reservations";
  reservation ← py.getitem0 reservations;
  instances ← py.getitem reservation "Instances";
  py.getitem0 instances.

(** The three lifecycle operations, the service method of each and the one
    client call it makes on the provider. *)
Inductive lifecycle : Type := start | stop | terminate.

Definition perform {P : Type} `{Ec2Client P} (op : lifecycle)
  : string → M P models.EC2Instance :=
  match op with
  | start => services.start_instance
  | stop => services.stop_instance
  | terminate => services.terminate_instance
  end.

Definition mutation (op : lifecycle) (instance_id : string) : api_call :=
  match op with
  | start => start_instances [instance_id]
  | stop => stop_instances [instance_id]
  | terminate => terminate_instances [instance_id]
  end.

(** The state name of a provider record, [record['State']['Name']]. *)
Definition state_name (record : pyval) : outcome pyval :=
  py.getitem record "State" ≫= fun st => py.getitem st "Name".

(** In the tag list, the tag keyed [key] is absent or empty: every tag
    with that key, if there is one, has the empty string as value. *)
Definition tag_absent_or_empty (key : string) (tag_list : list pyval) : Prop :=
  ∀ tag, tag ∈ tag_list →
    py.getitem tag "Key" = Return (VStr key) → py.getitem tag "Value" = Return (VStr "").

(** A filter value constrains a field when it is supplied and not empty;
    the field must then be that very string. *)
Definition satisfies (filter_value field : option string) : Prop :=
  ∀ s, filter_value = Some s → s ≠ "" → field = Some s.

#[global] Instance satisfies_dec filter_value field : Decision (satisfies filter_value field).
Proof.
  refine (match filter_value with
          | Some s =>
              match decide (s = "") with
              | left Hs => left _
              | right Hs =>
                  match decide (field = Some s) with
                  | left Hf => left _
                  | right Hf => right _
                  end
              end
          | None => left _
          end); unfold satisfies.
  - intros s' [= <-]. done.
  - intros s' [= <-]. done.
  - intros Hall. by apply Hf, Hall.
  - done.
Defined.

#[global] Instance EC2Instance_eq_dec : EqDecision models.EC2Instance.
Proof. solve_decision. Defined.

(** The instances of [l] a pair of filter values keeps. *)
Definition kept (environment instance_type : option string) (l : list models.EC2Instance)
  : list models.EC2Instance :=
  filter (fun i => satisfies environment (models.environment i)
                   ∧ satisfies instance_type (Some (models.instance_type i))) l.

(** The number of instances of [l] in the state [st]. *)
Definition in_state (st : string) (l : list models.EC2Instance) : nat :=
  length (filter (fun i => models.state i = st) l).

(** The verb of a lifecycle operation in its error message. *)
Definition verb (op : lifecycle) : string :=
  match op with
  | start => "start"
  | stop => "stop"
  | terminate => "terminate"
  end.

(** The keys of a provider record the translation reads. *)
Definition read_keys : list string :=
  ["Tags"; "InstanceId"; "InstanceType"; "State"; "PublicIpAddress";
   "PrivateIpAddress"; "LaunchTime"].

(** A tag as the provider reports it. *)
Definition tag_of (kv : string * string) : pyval :=
  VDict {[ "Key" := VStr kv.1; "Value" := VStr kv.2 ]}.

(** The value of the last pair with the key [key], if there is one. *)
Definition last_value (key : string) (kvs : list (string * string)) : option string :=
  snd <$> last (filter (fun kv => kv.1 = key) kvs).

(** The first required key a record lacks, in the order the translation
    reads them; [None] when none is lacking or [State] is not a dict. *)
Definition first_missing (d : gmap string pyval) : option string :=
  if d !! "InstanceId" is None then Some "InstanceId"
  else if d !! "InstanceType" is None then Some "InstanceType"
  else match d !! "State" with
       | None => Some "State"
       | Some (VDict st) =>
           if st !! "Name" is None then Some "Name"
           else if d !! "LaunchTime" is None then Some "LaunchTime"
           else None
       | Some _ => None
       end.

(** The translation once the tag dict is built: what it does with the
    record and the two tag values. *)
Definition translate_with (aws_instance name environment : pyval)
  : outcome models.EC2Instance :=
  instance_id ← py.getitem aws_instance "InstanceId";
  instance_type ← py.getitem aws_instance "InstanceType";
  state ← py.getitem aws_instance "State" ≫= (fun st => py.getitem st "Name");
  public_ip ← py.get aws_instance "PublicIpAddress" (VStr "");
  private_ip ← py.get aws_instance "PrivateIpAddress" (VStr "");
  launch_time ← py.getitem aws_instance "LaunchTime";
  models.EC2Instance_init instance_id instance_type state public_ip private_ip
    name environment launch_time.

(** The sum of the counts of a status breakdown. *)
Definition counted (m : gmap string nat) : nat := sum_list (map_to_list m).*2.

(** The keyword arguments [create_instance] launches a request with. *)
Definition launch_kwargs (request : EC2InstanceRequest.t) : run_instances_kwargs :=
  {| ImageId := EC2InstanceRequest.ami_id request;
     InstanceType := EC2InstanceRequest.instance_type request;
     KeyName := EC2InstanceRequest.key_pair_name request;
     SecurityGroupIds := [EC2InstanceRequest.security_group_id request];
     MinCount := 1;
     MaxCount := 1;
     TagSpecifications :=
       [{| ResourceType := "instance";
           Tags := [("Name", EC2InstanceRequest.name request);
                    ("Environment", EC2InstanceRequest.environment request)] |}] |}.

(** The world after the launch with the keyword arguments [kwargs]. *)
Definition launched {P : Type} `{Ec2Launcher P} (kwargs : run_instances_kwargs)
    (w : World P) : World P :=
  Build_World (run_instances kwargs (provider w)).2 (calls w) (clock w).

(** [m] raises nothing but exceptions in [Q]. *)
Definition raises_only {A : Type} (Q : exn → Prop) (m : outcome A) : Prop :=
  ∀ e, m = Raise e → Q e.

(** ** Loops *)

Section loops.
Context {A B : Type} (f : A → outcome B).

Lemma for_each_Return l ys :
  for_each f l = Return ys ↔ Forall2 (fun x y => f x = Return y) l ys.
Proof.
  revert ys. induction l as [|x l IH]; intros ys; simpl.
  - split.
    + intros [= <-]. constructor.
    + intros Hnil. by inversion Hnil.
  - unfold mbind, outcome_bind. destruct (f x) as [y|e] eqn:Hx.
    + destruct (for_each f l) as [ys'|e'] eqn:Hl.
      * split.
        -- intros [= <-]. constructor; [done|]. by apply IH.
        -- intros Hall. inversion Hall as [|? y0 ? ys0 Hy Hys]; subst.
           apply IH in Hys. congruence.
      * split; [done|]. intros Hall.
        inversion Hall as [|? y0 ? ys0 Hy Hys]; subst.
        apply IH in Hys. congruence.
    + split; [done|]. intros Hall. inversion Hall; congruence.
Qed.

(** The loop stops at the first element that raises. *)
Lemma for_each_Raise l1 x l2 e :
  Forall (fun x => ∃ y, f x = Return y) l1 →
  f x = Raise e →
  for_each f (l1 ++ x :: l2) = Raise e.
Proof.
  intros Hl1 Hx. induction Hl1 as [|x1 l1 [y Hy] _ IH]; simpl.
  - by rewrite Hx.
  - rewrite Hy. unfold mbind at 1, outcome_bind. by rewrite IH.
Qed.

Lemma for_each_Raise_inv l e :
  for_each f l = Raise e → ∃ x, x ∈ l ∧ f x = Raise e.
Proof.
  induction l as [|x l IH]; simpl; [done|].
  unfold mbind, outcome_bind. destruct (f x) as [y|e'] eqn:Hx.
  - destruct (for_each f l) as [ys|e'']; [done|].
    intros [= ->]. destruct IH as (x' & Hin & Hx'); [done|].
    exists x'. split; [by right | done].
  - intros [= ->]. exists x. split; [by left | done].
Qed.

(** Appending to a list in a loop collects what [f] returns, in order. *)
Lemma for_in_append l acc :
  for_in l (fun x acc => y ← f x; Return (acc ++ [y])%list) acc
  = (ys ← for_each f l; Return (acc ++ ys)%list).
Proof.
  revert acc. induction l as [|x l IH]; intros acc; simpl.
  - unfold mbind, outcome_bind. by rewrite app_nil_r.
  - unfold mbind at 1 3, outcome_bind. destruct (f x) as [y|e]; [|done].
    rewrite IH. unfold mbind, outcome_bind.
    destruct (for_each f l) as [ys|e]; [|done].
    by rewrite <- app_assoc.
Qed.

End loops.

Lemma for_each_app {A B : Type} (f : A → outcome B) l1 l2 :
  for_each f (l1 ++ l2)
  = (ys1 ← for_each f l1; ys2 ← for_each f l2; Return (ys1 ++ ys2)%list).
Proof.
  induction l1 as [|x l1 IH]; simpl.
  - unfold mbind, outcome_bind. by destruct (for_each f l2).
  - unfold mbind at 1 3 4, outcome_bind. destruct (f x) as [y|e]; [|done].
    rewrite IH. unfold mbind, outcome_bind.
    destruct (for_each f l1); [|done]. by destruct (for_each f l2).
Qed.

Lemma bind_Return_inv {A B : Type} (m : outcome A) (k : A → outcome B) b :
  m ≫= k = Return b → ∃ a, m = Return a ∧ k a = Return b.
Proof. unfold mbind, outcome_bind. destruct m as [a|e]; [eauto | done]. Qed.

Ltac bind_inv H :=
  let a := fresh "a" in
  let Ha := fresh "Ha" in
  apply bind_Return_inv in H as (a & Ha & H).

Lemma validate_str_Return_inv v s : models.validate_str v = Return s → v = VStr s.
Proof. destruct v; simpl; try done. by intros [= ->]. Qed.

Lemma validate_datetime_Return_inv v t : models.validate_datetime v = Return t → v = VTime t.
Proof. destruct v; simpl; try done. by intros [= ->]. Qed.

Lemma convert_Return_inv r i :
  services._convert_to_ec2_instance r = Return i →
  ∃ d tag_list tags,
    r = VDict d
    ∧ py.iter (default (VList []) (d !! "Tags")) = Return tag_list
    ∧ services.tags_of tag_list = Return tags
    ∧ d !! "InstanceId" = Some (VStr (models.instance_id i))
    ∧ d !! "InstanceType" = Some (VStr (models.instance_type i))
    ∧ state_name r = Return (VStr (models.state i))
    ∧ models.validate_optional_str (default (VStr "") (d !! "PublicIpAddress"))
      = Return (models.public_ip i)
    ∧ models.validate_optional_str (default (VStr "") (d !! "PrivateIpAddress"))
      = Return (models.private_ip i)
    ∧ models.validate_optional_str (services.tags_get tags "Name" (VStr ""))
      = Return (models.name i)
    ∧ models.validate_optional_str (services.tags_get tags "Environment" (VStr ""))
      = Return (models.environment i)
    ∧ d !! "LaunchTime" = Some (VTime (models.launch_time i)).
Proof.
  unfold services._convert_to_ec2_instance, models.EC2Instance_init, state_name.
  intros Hi. destruct r as [| | | | |d]; try done.
  exists d. simpl in Hi.
  bind_inv Hi. rename a into tag_list, Ha into Htag_list.
  bind_inv Hi. rename a into tags, Ha into Htags.
  bind_inv Hi. rename a into instance_id, Ha into Hid.
  bind_inv Hi. rename a into instance_type, Ha into Hty.
  bind_inv Hi. rename a into state, Ha into Hst.
  bind_inv Hi. rename a into launch_time, Ha into Hlt.
  bind_inv Hi. rename a into instance_id', Ha into Hid'.
  bind_inv Hi. rename a into instance_type', Ha into Hty'.
  bind_inv Hi. rename a into state', Ha into Hst'.
  bind_inv Hi. rename a into public_ip', Ha into Hpub'.
  bind_inv Hi. rename a into private_ip', Ha into Hpriv'.
  bind_inv Hi. rename a into name', Ha into Hname'.
  bind_inv Hi. rename a into environment', Ha into Henv'.
  bind_inv Hi. rename a into launch_time', Ha into Hlt'.
  injection Hi as <-. simpl.
  exists tag_list, tags.
  apply validate_str_Return_inv in Hid' as ->.
  apply validate_str_Return_inv in Hty' as ->.
  apply validate_str_Return_inv in Hst' as ->.
  apply validate_datetime_Return_inv in Hlt' as ->.
  destruct (d !! "InstanceId") as [x|]; [injection Hid as ->|done].
  destruct (d !! "InstanceType") as [x|]; [injection Hty as ->|done].
  destruct (d !! "LaunchTime") as [x|]; [injection Hlt as ->|done].
  repeat split; done.
Qed.

(** ** What the translation can raise *)

Lemma raises_only_bind {A B : Type} (Q : exn → Prop) (m : outcome A) (k : A → outcome B) :
  raises_only Q m → (∀ a, m = Return a → raises_only Q (k a)) → raises_only Q (m ≫= k).
Proof.
  intros Hm Hk e. unfold mbind, outcome_bind. destruct m as [a|e']; [by apply Hk|].
  intros [= ->]. by apply Hm.
Qed.

Lemma raises_only_Return {A : Type} (Q : exn → Prop) (a : A) : raises_only Q (Return a).
Proof. by intros e. Qed.

Lemma raises_only_for_in {A ST : Type} (Q : exn → Prop) (l : list A)
    (body : A → ST → outcome ST) st :
  (∀ x st, raises_only Q (body x st)) → raises_only Q (for_in l body st).
Proof.
  intros Hbody. revert st. induction l as [|x l IH]; intros st; simpl.
  - apply raises_only_Return.
  - apply raises_only_bind; [apply Hbody | intros; apply IH].
Qed.

Lemma getitem_raises v key : raises_only translation_error (py.getitem v key).
Proof. intros e. destruct v; simpl; try by intros [= <-]. by destruct (_ !! _); intros [= <-]. Qed.

Lemma getitem0_raises v : raises_only translation_error (py.getitem0 v).
Proof.
  intros e. destruct v as [| s | | | l |]; simpl; try by intros [= <-].
  - by destruct s; intros [= <-].
  - by destruct l; intros [= <-].
Qed.

Lemma get_raises v key dflt : raises_only translation_error (py.get v key dflt).
Proof. intros e. by destruct v; simpl; intros [= <-]. Qed.

Lemma iter_raises v : raises_only translation_error (py.iter v).
Proof. intros e. by destruct v; simpl; intros [= <-]. Qed.

Lemma hash_key_raises v : raises_only translation_error (services.hash_key v).
Proof. intros e. by destruct v; simpl; intros [= <-]. Qed.

Lemma validate_str_raises v : raises_only translation_error (models.validate_str v).
Proof. intros e. by destruct v; simpl; intros [= <-]. Qed.

Lemma validate_optional_str_raises v :
  raises_only translation_error (models.validate_optional_str v).
Proof. intros e. by destruct v; simpl; intros [= <-]. Qed.

Lemma validate_datetime_raises v : raises_only translation_error (models.validate_datetime v).
Proof. intros e. by destruct v; simpl; intros [= <-]. Qed.

Create HintDb raises.
#[local] Hint Resolve raises_only_Return getitem_raises getitem0_raises get_raises
  iter_raises hash_key_raises validate_str_raises validate_optional_str_raises
  validate_datetime_raises : raises.

Ltac raises_steps :=
  repeat first
    [ apply raises_only_bind; [solve [auto with raises] | intros ? _]
    | apply raises_only_bind; [ | intros ? _] ];
  auto with raises.

Lemma tags_of_raises tag_list : raises_only translation_error (services.tags_of tag_list).
Proof. apply raises_only_for_in. intros tag tags. raises_steps. Qed.

Lemma convert_raises r :
  raises_only translation_error (services._convert_to_ec2_instance r).
Proof.
  unfold services._convert_to_ec2_instance, models.EC2Instance_init.
  raises_steps. apply tags_of_raises.
Qed.

Lemma first_record_raises response :
  raises_only translation_error (first_record response).
Proof. unfold first_record. raises_steps. Qed.

(** ** Runs of the service operations *)

Section runs.
Context {P : Type} `{Ec2Client P}.

Lemma invoke_run c (w : World P) : invoke c w = ((call_api c (provider w)).1, after c w).
Proof. unfold invoke, after. by destruct (call_api c (provider w)). Qed.

Lemma lift_bind {A B : Type} (m : outcome A) (k : A → outcome B) (w : World P) :
  (lift m ≫= fun x => lift (k x)) w = lift (m ≫= k) w.
Proof. unfold mbind, M_bind, outcome_bind, lift. by destruct m. Qed.

(** The outcome of [get_instance], by what the describe call did. *)
Lemma get_instance_run instance_id (w : World P) :
  let c := describe_instances (Some [instance_id]) in
  services.get_instance instance_id w =
  (match (call_api c (provider w)).1 with
   | Return response =>
       reservations ← py.getitem response "Reservations";
       if negb (py.truthy reservations)
       then Raise (HTTPException 404 ("Instance " ++ instance_id ++ " not found"))
       else first_record response ≫= services._convert_to_ec2_instance
   | Raise (ClientError msg) =>
       Raise (HTTPException 404
                ("Failed to get instance " ++ instance_id ++ ": " ++ msg))
   | Raise e => Raise e
   end, after c w).
Proof.
  intros c. unfold services.get_instance, try_except_ClientError, first_record.
  unfold mbind at 1, M_bind. rewrite invoke_run. fold c.
  destruct (call_api c (provider w)).1 as [response|e]; simpl; [|by destruct e].
  unfold mbind, M_bind, outcome_bind, lift, raise.
  destruct (py.getitem response "Reservations") as [rs|e] eqn:Hrs.
  - destruct (py.truthy rs); simpl; [|done].
    destruct (py.getitem0 rs) as [r0|e] eqn:Hr0.
    + destruct (py.getitem r0 "Instances") as [ins|e] eqn:His.
      * destruct (py.getitem0 ins) as [inst|e] eqn:Hinst.
        -- destruct (services._convert_to_ec2_instance inst) as [i|e] eqn:Hi; [done|].
           apply convert_raises in Hi. by destruct e.
        -- apply getitem0_raises in Hinst. by destruct e.
      * apply getitem_raises in His. by destruct e.
    + apply getitem0_raises in Hr0. by destruct e.
  - apply getitem_raises in Hrs. by destruct e.
Qed.

Lemma get_instance_no_ClientError instance_id (w : World P) msg :
  (services.get_instance instance_id w).1 ≠ Raise (ClientError msg).
Proof.
  rewrite get_instance_run. simpl.
  destruct (call_api _ _).1 as [response|e]; [|by destruct e].
  unfold mbind, outcome_bind.
  destruct (py.getitem response "Reservations") as [rs|e] eqn:Hrs.
  - destruct (py.truthy rs); simpl; [|done].
    destruct (first_record response) as [inst|e] eqn:Hinst.
    + intros Hi. apply convert_raises in Hi. done.
    + intros [= ->]. by apply first_record_raises in Hinst.
  - intros [= ->]. by apply getitem_raises in Hrs.
Qed.

(** The two nested loops of [list_instances] translate the records of
    all reservations, in order. *)
Lemma reservations_loop rsv groups acc :
  Forall2 is_reservation rsv groups →
  for_in rsv
    (fun reservation instances =>
       rs ← py.getitem reservation "Instances" ≫= py.iter;
       for_in rs
         (fun instance instances =>
            i ← services._convert_to_ec2_instance instance;
            Return (instances ++ [i])%list)
         instances)
    acc
  = (ys ← for_each services._convert_to_ec2_instance (concat groups);
     Return (acc ++ ys)%list).
Proof.
  intros Hshape. revert acc.
  induction Hshape as [|r records rsv groups (rd & -> & Hrd) _ IH]; intros acc; simpl.
  - unfold mbind, outcome_bind. by rewrite app_nil_r.
  - rewrite Hrd. unfold mbind at 1 2, outcome_bind; simpl.
    rewrite for_in_append, for_each_app.
    unfold mbind at 1 2 3 4, outcome_bind.
    destruct (for_each _ records) as [ys1|e]; [|done].
    rewrite IH. unfold mbind, outcome_bind.
    destruct (for_each _ (concat groups)) as [ys2|e]; [|done].
    by rewrite app_assoc.
Qed.

Lemma list_instances_run (w : World P) :
  let c := describe_instances None in
  services.list_instances w =
  (match (call_api c (provider w)).1 with
   | Return response =>
       reservations ← py.getitem response "Reservations" ≫= py.iter;
       for_in reservations
         (fun reservation instances =>
            rs ← py.getitem reservation "Instances" ≫= py.iter;
            for_in rs
              (fun instance instances =>
                 i ← services._convert_to_ec2_instance instance;
                 Return (instances ++ [i])%list)
              instances)
         []
   | Raise (ClientError msg) =>
       Raise (HTTPException 400 ("Failed to list instances: " ++ msg))
   | Raise e => Raise e
   end, after c w).
Proof.
  intros c. unfold services.list_instances, try_except_ClientError.
  unfold mbind at 1, M_bind. rewrite invoke_run. fold c.
  destruct (call_api c (provider w)).1 as [response|e]; simpl; [|by destruct e].
  rewrite lift_bind. unfold lift.
  match goal with |- context [(?m, after c w)] =>
    assert (raises_only translation_error m) as Hr; [|destruct m as [l|e]; [done|]]
  end.
  - apply raises_only_bind; [raises_steps|intros rsv _].
    apply raises_only_for_in. intros reservation instances.
    apply raises_only_bind; [raises_steps|intros rs _].
    apply raises_only_for_in. intros instance instances'.
    apply raises_only_bind; [apply convert_raises | auto with raises].
  - specialize (Hr e eq_refl). by destruct e.
Qed.

(** On a response of the expected shape, [list_instances] is the
    translation of its records in the order the provider gave them. *)
Lemma list_instances_shaped (w : World P) d rsv groups :
  let c := describe_instances None in
  (call_api c (provider w)).1 = Return (VDict d) →
  d !! "Reservations" = Some (VList rsv) →
  Forall2 is_reservation rsv groups →
  services.list_instances w =
  (for_each services._convert_to_ec2_instance (concat groups), after c w).
Proof.
  intros c Hcall Hd Hshape. rewrite list_instances_run. fold c. rewrite Hcall.
  f_equal.
  assert (py.getitem (VDict d) "Reservations" ≫= py.iter = Return rsv) as ->.
  { simpl. by rewrite Hd. }
  unfold mbind at 1, outcome_bind at 1. cbv beta iota.
  rewrite (reservations_loop _ _ [] Hshape). unfold mbind, outcome_bind.
  by destruct (for_each _ _).
Qed.

(** A lifecycle operation: the mutating call, then [get_instance] in the
    world the call left. *)
Lemma perform_run op instance_id (w : World P) :
  let c := mutation op instance_id in
  perform op instance_id w =
  match (call_api c (provider w)).1 with
  | Return _ => services.get_instance instance_id (after c w)
  | Raise (ClientError msg) =>
      (Raise (HTTPException 400
         ("Failed to " ++ match op with
                          | start => "start"
                          | stop => "stop"
                          | terminate => "terminate"
                          end ++ " instance " ++ instance_id ++ ": " ++ msg)),
       after c w)
  | Raise e => (Raise e, after c w)
  end.
Proof.
  intros c.
  assert (∀ handler,
    try_except_ClientError (_ ← invoke c; services.get_instance instance_id) handler w
    = match (call_api c (provider w)).1 with
      | Return _ => services.get_instance instance_id (after c w)
      | Raise (ClientError msg) => handler msg (after c w)
      | Raise e => (Raise e, after c w)
      end) as Hrun.
  { intros handler. unfold try_except_ClientError, mbind, M_bind.
    rewrite invoke_run.
    destruct (call_api c (provider w)).1 as [response|e]; [|by destruct e].
    pose proof (get_instance_no_ClientError instance_id (after c w)) as Hno.
    destruct (services.get_instance instance_id (after c w)) as [[i|e] w']; [done|].
    destruct e; try done. by destruct (Hno msg). }
  destruct op; apply Hrun.
Qed.

End runs.

(** ** The contract *)

Section contract.
Context {P : Type} `{Ec2Client P}.

(** C4 (amended).  [get_instance] makes one call, [describe_instances]
    restricted to the id.  When the response has no reservation it raises
    the 404 "not found"; when the call raises [ClientError] it raises the
    404 "Failed to get instance" carrying the message; any other exception
    of the call passes through unchanged; otherwise the result is the
    translation of the first instance of the first reservation, whatever
    follows it. *)
Theorem get_instance_contract (instance_id : string) (w : World P) :
  let c := describe_instances (Some [instance_id]) in
  let r := (call_api c (provider w)).1 in
  let result := services.get_instance instance_id w in
  result.2 = after c w
  ∧ (∀ d, r = Return (VDict d) → d !! "Reservations" = Some (VList []) →
       result.1 = Raise (HTTPException 404 ("Instance " ++ instance_id ++ " not found")))
  ∧ (∀ msg, r = Raise (ClientError msg) →
       result.1 = Raise (HTTPException 404
                           ("Failed to get instance " ++ instance_id ++ ": " ++ msg)))
  ∧ (∀ e, r = Raise e → (∀ msg, e ≠ ClientError msg) → result.1 = Raise e)
  ∧ (∀ d rd reservations record records,
       r = Return (VDict d) →
       d !! "Reservations" = Some (VList (VDict rd :: reservations)) →
       rd !! "Instances" = Some (VList (record :: records)) →
       result.1 = services._convert_to_ec2_instance record).
Proof.
  intros c r result. unfold result. rewrite get_instance_run. fold c r. simpl.
  split; [done|]. split; [|split; [|split]].
  - intros d -> Hd. simpl. by rewrite Hd.
  - by intros msg ->.
  - intros e -> Hne. destruct e; try done. by destruct (Hne msg).
  - intros d rd reservations record records -> Hd Hrd.
    unfold first_record. simpl. rewrite Hd. simpl. by rewrite Hrd.
Qed.

(** C5.  Each of start, stop and terminate makes its mutating call
    whatever the state of the provider, and no other mutating call; when
    that call returns, the operation is [get_instance] run right after it,
    so the state of the instance returned is the state name of the record
    the provider reports at that moment. *)
Theorem lifecycle_forwards_then_reads (op : lifecycle) (instance_id : string)
    (w : World P) :
  let c := mutation op instance_id in
  let result := perform op instance_id w in
  calls result.2
  = (calls w ++ c :: match (call_api c (provider w)).1 with
                     | Return _ => [describe_instances (Some [instance_id])]
                     | Raise _ => []
                     end)%list
  ∧ filter mutating (calls result.2) = (filter mutating (calls w) ++ [c])%list
  ∧ (∀ response, (call_api c (provider w)).1 = Return response →
       result = services.get_instance instance_id (after c w))
  ∧ (∀ i, result.1 = Return i →
       ∃ response record,
         (call_api (describe_instances (Some [instance_id]))
                   (provider (after c w))).1 = Return response
         ∧ first_record response = Return record
         ∧ state_name record = Return (VStr (models.state i))).
Proof.
  intros c result.
  assert (mutating c = true) as Hc by by destruct op.
  unfold result. rewrite perform_run. fold c.
  destruct (call_api c (provider w)).1 as [response|e] eqn:Hcall.
  - rewrite get_instance_run. simpl.
    split; [by rewrite <- app_assoc|].
    split.
    { rewrite !filter_app, !filter_cons, Hc. simpl.
      by rewrite filter_nil, app_nil_r. }
    split; [done|].
    intros i Hi.
    change (provider (after c w)) with (call_api c (provider w)).2.
    destruct (call_api _ (call_api c (provider w)).2).1 as [response'|e];
      [|by destruct e].
    exists response'. bind_inv Hi. rename a into reservations.
    destruct (py.truthy reservations); [|done]. simpl in Hi.
    bind_inv Hi. rename a into record. exists record.
    apply convert_Return_inv in Hi as (d & tag_list & tags & _ & _ & _ & _ & _ & Hst & _).
    done.
  - assert (∀ o : outcome models.EC2Instance,
              calls (o, after c w).2 = (calls w ++ [c])%list) as Hlog by done.
    destruct e; simpl; (split; [done|]); (split; [
      by rewrite filter_app, filter_cons, Hc, filter_nil|]); by split.
Qed.

(** C8 (amended).  The tag update makes no call on the client, whatever
    the id and the body: the world is left as it was.  For every body that
    is a JSON object it raises the 501 error; a request without body, or
    with a body that is not an object, fails the validation of the body
    instead and the handler does not run. *)
Theorem update_instance_tags_not_implemented (instance_id : string)
    (body : option pyval) (w : World P) :
  let result := ec2.post_tags instance_id body w in
  result.2 = w
  ∧ (∀ tags, body = Some (VDict tags) →
       result.1 = Raise (HTTPException 501 "Tag update functionality not implemented yet")
       ∧ ec2.update_instance_tags instance_id tags w = result)
  ∧ ((∀ tags, body ≠ Some (VDict tags)) → result.1 = Raise ValidationError).
Proof.
  intros result. unfold result, ec2.post_tags.
  split; [|split].
  - destruct body as [[| | | | |tags]|]; reflexivity.
  - by intros tags ->.
  - intros Hnot. destruct body as [[| | | | |tags]|]; try reflexivity.
    by destruct (Hnot tags).
Qed.

End contract.

(** ** The tag dict *)

Lemma for_in_app {A ST : Type} (l1 l2 : list A) (body : A → ST → outcome ST) st :
  for_in (l1 ++ l2) body st = (st' ← for_in l1 body st; for_in l2 body st').
Proof.
  revert st. induction l1 as [|x l1 IH]; intros st; simpl; [done|].
  unfold mbind at 1 3, outcome_bind. destruct (body x st) as [st1|e]; [apply IH|done].
Qed.

(** A property of the loop variables every round keeps holds when the loop
    is left normally. *)
Lemma for_in_invariant {A ST : Type} (I : ST → Prop) (l : list A)
    (body : A → ST → outcome ST) st st' :
  (∀ x s s', x ∈ l → I s → body x s = Return s' → I s') →
  I st → for_in l body st = Return st' → I st'.
Proof.
  revert st. induction l as [|x l IH]; intros st Hbody Hst; simpl.
  - by intros [= <-].
  - intros Hrun. bind_inv Hrun. eapply (IH a); [ | |done].
    + intros y s s' Hy. apply Hbody. by right.
    + eapply Hbody; [by left|done..].
Qed.

Lemma hash_key_str v key : services.hash_key v = Return (HStr key) → v = VStr key.
Proof. destruct v; simpl; try done. by intros [= ->]. Qed.

(** One round of the comprehension stores the value of the tag under its
    key. *)
Lemma tag_round tag (tags tags' : gmap hkey pyval) :
  (k ← py.getitem tag "Key";
   v ← py.getitem tag "Value";
   h ← services.hash_key k;
   Return (<[h := v]> tags)) = Return tags' →
  ∃ k v h, py.getitem tag "Key" = Return k ∧ py.getitem tag "Value" = Return v
           ∧ services.hash_key k = Return h ∧ tags' = <[h := v]> tags.
Proof.
  intros Hr. bind_inv Hr. rename a into k. bind_inv Hr. rename a into v.
  bind_inv Hr. rename a into h. injection Hr as <-. by exists k, v, h.
Qed.

(** Tags with other keys leave the entry of [key] alone. *)
Lemma tags_loop_other key l (acc tags : gmap hkey pyval) :
  (∀ t, t ∈ l → py.getitem t "Key" ≠ Return (VStr key)) →
  for_in l
    (fun tag tags =>
       k ← py.getitem tag "Key";
       v ← py.getitem tag "Value";
       h ← services.hash_key k;
       Return (<[h := v]> tags)) acc = Return tags →
  tags !! HStr key = acc !! HStr key.
Proof.
  intros Hother. apply (for_in_invariant (fun m => m !! HStr key = acc !! HStr key)); [|done].
  intros tag s s' Hin Hs Hround.
  apply tag_round in Hround as (k & v & h & Hk & Hv & Hh & ->).
  rewrite lookup_insert_ne; [done|]. intros ->.
  apply hash_key_str in Hh as ->. by apply (Hother tag).
Qed.

(** The dict holds, for a key, the value of the last tag with that key. *)
Lemma tags_of_last key l1 tag l2 v tags :
  py.getitem tag "Key" = Return (VStr key) →
  py.getitem tag "Value" = Return v →
  (∀ t, t ∈ l2 → py.getitem t "Key" ≠ Return (VStr key)) →
  services.tags_of (l1 ++ tag :: l2) = Return tags →
  tags !! HStr key = Some v.
Proof.
  intros Hk Hv Hl2. unfold services.tags_of. rewrite for_in_app. intros Hrun.
  bind_inv Hrun. rename a into tags1. simpl in Hrun.
  bind_inv Hrun. rename a into tags2.
  rewrite (tags_loop_other key l2 tags2 tags Hl2 Hrun).
  apply tag_round in Ha0 as (k' & v' & h & Hk' & Hv' & Hh & ->).
  rewrite Hk in Hk'. injection Hk' as <-. rewrite Hv in Hv'. injection Hv' as <-.
  simpl in Hh. injection Hh as <-. apply lookup_insert_eq.
Qed.

Lemma tags_of_absent_or_empty key tag_list tags :
  tag_absent_or_empty key tag_list →
  services.tags_of tag_list = Return tags →
  services.tags_get tags key (VStr "") = VStr "".
Proof.
  intros Hempty.
  apply (for_in_invariant (fun m => services.tags_get m key (VStr "") = VStr "")); [|done].
  intros tag s s' Hin Hs Hround.
  apply tag_round in Hround as (k & v & h & Hk & Hv & Hh & ->).
  unfold services.tags_get in *. destruct (decide (h = HStr key)) as [->|Hne].
  - rewrite lookup_insert_eq. simpl. apply hash_key_str in Hh as ->.
    specialize (Hempty tag Hin Hk). congruence.
  - by rewrite lookup_insert_ne.
Qed.

(** ** The translator *)

Section translator.

(** C2 (amended).  Translation fails whenever the record has no
    [InstanceId], and the id of an accepted record is the string the
    record holds under [InstanceId], unchanged: it is empty exactly when
    that string is. *)
Theorem instance_id_verbatim (d : gmap string pyval) :
  (d !! "InstanceId" = None →
     ∃ e, services._convert_to_ec2_instance (VDict d) = Raise e ∧ translation_error e)
  ∧ (∀ i, services._convert_to_ec2_instance (VDict d) = Return i →
       d !! "InstanceId" = Some (VStr (models.instance_id i))).
Proof.
  split.
  - intros Hnone.
    destruct (services._convert_to_ec2_instance (VDict d)) as [i|e] eqn:Hi.
    + apply convert_Return_inv in Hi as (d' & _ & _ & [= <-] & _ & _ & Hid & _).
      congruence.
    + exists e. split; [done|]. by apply convert_raises in Hi.
  - intros i Hi.
    by apply convert_Return_inv in Hi as (d' & _ & _ & [= <-] & _ & _ & Hid & _).
Qed.

(** C7 (amended).  In an accepted record, an address whose key is missing
    or whose value is the empty string gives the empty string, and so does
    a [Name] or [Environment] tag that is missing (no tag list, or no tag
    with that key) or has the empty string as value.  The default is for a
    missing key only: an address that is [None] in the record, or a tag
    whose value is [None], gives [None]. *)
Theorem optional_fields_default (d : gmap string pyval) (i : models.EC2Instance)
    (Hi : services._convert_to_ec2_instance (VDict d) = Return i) :
  (d !! "PublicIpAddress" = None ∨ d !! "PublicIpAddress" = Some (VStr "") →
     models.public_ip i = Some "")
  ∧ (d !! "PrivateIpAddress" = None ∨ d !! "PrivateIpAddress" = Some (VStr "") →
       models.private_ip i = Some "")
  ∧ (d !! "Tags" = None →
       models.name i = Some "" ∧ models.environment i = Some "")
  ∧ (∀ tag_list, d !! "Tags" = Some (VList tag_list) →
       (tag_absent_or_empty "Name" tag_list → models.name i = Some "")
       ∧ (tag_absent_or_empty "Environment" tag_list →
            models.environment i = Some ""))
  ∧ (d !! "PublicIpAddress" = Some VNone → models.public_ip i = None)
  ∧ (d !! "PrivateIpAddress" = Some VNone → models.private_ip i = None)
  ∧ (∀ l1 tag l2 key,
       d !! "Tags" = Some (VList (l1 ++ tag :: l2)) →
       py.getitem tag "Key" = Return (VStr key) →
       py.getitem tag "Value" = Return VNone →
       (∀ t, t ∈ l2 → py.getitem t "Key" ≠ Return (VStr key)) →
       (key = "Name" → models.name i = None)
       ∧ (key = "Environment" → models.environment i = None)).
Proof.
  apply convert_Return_inv in Hi
    as (d' & tag_list & tags & [= <-] & Hiter & Htags & _ & _ & _
        & Hpub & Hpriv & Hname & Henv & _).
  assert (∀ key l, py.iter (default (VList []) (d !! "Tags")) = Return l →
            tag_absent_or_empty key l →
            ∀ o, models.validate_optional_str (services.tags_get tags key (VStr ""))
                 = Return o → o = Some "") as Htag.
  { intros key l Hl Hempty o Ho. rewrite Hiter in Hl. injection Hl as <-.
    rewrite (tags_of_absent_or_empty key tag_list tags Hempty Htags) in Ho.
    by injection Ho as <-. }
  split; [|split; [|split; [|split; [|split; [|split]]]]].
  - intros [Hd|Hd]; rewrite Hd in Hpub; by injection Hpub as <-.
  - intros [Hd|Hd]; rewrite Hd in Hpriv; by injection Hpriv as <-.
  - intros Hd.
    assert (∀ key, tag_absent_or_empty key []) as Hnil.
    { intros key tag Hin. by apply elem_of_nil in Hin. }
    assert (py.iter (default (VList []) (d !! "Tags")) = Return []) as Hl
      by by rewrite Hd.
    split; [apply (Htag "Name" [] Hl (Hnil _) _ Hname)
           | apply (Htag "Environment" [] Hl (Hnil _) _ Henv)].
  - intros l Hd.
    assert (py.iter (default (VList []) (d !! "Tags")) = Return l) as Hl
      by by rewrite Hd.
    split; intros Hempty;
      [apply (Htag "Name" l Hl Hempty _ Hname)
      | apply (Htag "Environment" l Hl Hempty _ Henv)].
  - intros Hd. rewrite Hd in Hpub. by injection Hpub as <-.
  - intros Hd. rewrite Hd in Hpriv. by injection Hpriv as <-.
  - intros l1 tag l2 key Hd Hkey Hvalue Hlast.
    rewrite Hd in Hiter. injection Hiter as <-.
    pose proof (tags_of_last key l1 tag l2 VNone tags Hkey Hvalue Hlast Htags) as Hlook.
    unfold services.tags_get in *.
    split; intros ->; rewrite Hlook in *; simpl in *; congruence.
Qed.

(** C10.  When several tags of an accepted record have the key [Name] (or
    [Environment]), the field is the value of the last of them in the
    list; the earlier ones are overwritten. *)
Theorem duplicate_tag_last_wins (d : gmap string pyval) (i : models.EC2Instance)
    (l1 l2 : list pyval) (tag : pyval) (key : string) (v : pyval)
    (Hi : services._convert_to_ec2_instance (VDict d) = Return i)
    (Htags : d !! "Tags" = Some (VList (l1 ++ tag :: l2)))
    (Hkey : py.getitem tag "Key" = Return (VStr key))
    (Hvalue : py.getitem tag "Value" = Return v)
    (Hlast : ∀ t, t ∈ l2 → py.getitem t "Key" ≠ Return (VStr key)) :
  (key = "Name" → models.validate_optional_str v = Return (models.name i))
  ∧ (key = "Environment" →
       models.validate_optional_str v = Return (models.environment i)).
Proof.
  apply convert_Return_inv in Hi
    as (d' & tag_list & tags & [= <-] & Hiter & Htags_of & _ & _ & _
        & _ & _ & Hname & Henv & _).
  rewrite Htags in Hiter. injection Hiter as <-.
  pose proof (tags_of_last key l1 tag l2 v tags Hkey Hvalue Hlast Htags_of) as Hlook.
  unfold services.tags_get in *.
  split; intros ->; rewrite Hlook in *; done.
Qed.

End translator.

(** ** The directory *)

Lemma filter_ext_elem {A : Type} (Q1 Q2 : A → Prop)
    `{!∀ x, Decision (Q1 x), !∀ x, Decision (Q2 x)} (l : list A) :
  (∀ x, x ∈ l → Q1 x ↔ Q2 x) → filter Q1 l = filter Q2 l.
Proof.
  induction l as [|x l IH]; intros Hiff; [done|].
  rewrite !filter_cons.
  rewrite IH by (intros y Hy; apply Hiff; by right).
  apply decide_ext, Hiff. by left.
Qed.

Lemma filter_all {A : Type} (Q : A → Prop) `{!∀ x, Decision (Q x)} (l : list A) :
  (∀ x, Q x) → filter Q l = l.
Proof.
  intros HQ. induction l as [|x l IH]; [done|].
  by rewrite filter_cons_True, IH.
Qed.

Lemma truthy_opt_satisfies filter_value field :
  satisfies filter_value field
  ↔ (py.truthy_opt filter_value = true → field = filter_value).
Proof.
  unfold satisfies, py.truthy_opt. destruct filter_value as [s|]; [|by split].
  destruct (String.eqb_spec s "") as [->|Hs]; simpl.
  - split; [done|]. by intros _ s' [= <-].
  - split.
    + intros Hall _. by apply Hall.
    + intros Heq s' [= <-] _. by apply Heq.
Qed.

(** The two filtering statements of the handler keep the instances that
    satisfy both filter values. *)
Lemma handler_filters environment instance_type (l : list models.EC2Instance) :
  (let instances :=
     if py.truthy_opt environment
     then filter (fun i => models.environment i = environment) l
     else l in
   if py.truthy_opt instance_type
   then filter (fun i => Some (models.instance_type i) = instance_type) instances
   else instances)
  = kept environment instance_type l.
Proof.
  unfold kept. simpl.
  destruct (py.truthy_opt environment) eqn:He, (py.truthy_opt instance_type) eqn:Ht.
  - rewrite list_filter_filter. apply list_filter_iff. intros i.
    rewrite !truthy_opt_satisfies, He, Ht. tauto.
  - apply list_filter_iff. intros i.
    rewrite !truthy_opt_satisfies, He, Ht. split; [by intros ->|tauto].
  - apply list_filter_iff. intros i.
    rewrite !truthy_opt_satisfies, He, Ht. split; [by intros ->|tauto].
  - symmetry. apply filter_all. intros i.
    rewrite !truthy_opt_satisfies, He, Ht. done.
Qed.

Lemma convert_by_tags (aws_instance : pyval) :
  services._convert_to_ec2_instance aws_instance
  = (tag_list ← py.get aws_instance "Tags" (VList []) ≫= py.iter;
     tags ← services.tags_of tag_list;
     translate_with aws_instance (services.tags_get tags "Name" (VStr ""))
       (services.tags_get tags "Environment" (VStr ""))).
Proof. reflexivity. Qed.

(** With the tag dict built, the first required key that is lacking is
    the one the [KeyError] names. *)
Lemma first_missing_raises (d : gmap string pyval) (tags : gmap hkey pyval)
    (key : string) :
  (tag_list ← py.get (VDict d) "Tags" (VList []) ≫= py.iter;
   services.tags_of tag_list) = Return tags →
  first_missing d = Some key →
  services._convert_to_ec2_instance (VDict d) = Raise (KeyError (VStr key)).
Proof.
  intros Htags Hmissing.
  rewrite convert_by_tags.
  bind_inv Htags. rename a into tag_list. rewrite Ha.
  unfold mbind at 1, outcome_bind at 1. cbv beta iota. rewrite Htags.
  unfold mbind at 1, outcome_bind at 1. cbv beta iota.
  unfold translate_with, first_missing in *. unfold mbind, outcome_bind. simpl.
  destruct (d !! "InstanceId") as [id|]; [|by injection Hmissing as <-].
  destruct (d !! "InstanceType") as [ty|]; [|by injection Hmissing as <-].
  destruct (d !! "State") as [st|]; [|by injection Hmissing as <-].
  destruct st as [| | | | |sd]; try done. simpl.
  destruct (sd !! "Name") as [nm|]; [|by injection Hmissing as <-].
  destruct (d !! "LaunchTime") as [lt|]; [done|by injection Hmissing as <-].
Qed.

(** A record lacking a required field has a first missing key, unless its
    [State] is there and is not a dict. *)
Lemma missing_required_first (d : gmap string pyval) :
  missing_required d →
  d !! "State" = None ∨ (∃ st, d !! "State" = Some (VDict st)) →
  ∃ key, first_missing d = Some key.
Proof.
  unfold missing_required, first_missing. intros Hmissing Hstate.
  destruct (d !! "InstanceId") as [id|]; [|by eexists].
  destruct (d !! "InstanceType") as [ty|]; [|by eexists].
  destruct (d !! "State") as [st|]; [|by eexists].
  destruct Hstate as [?|[sd [= ->]]]; [done|].
  destruct (sd !! "Name") as [nm|] eqn:Hnm; [|by eexists].
  destruct (d !! "LaunchTime") as [lt|]; [|by eexists].
  destruct Hmissing as [?|[?|[?|[(sd' & [= <-] & Hnone)|?]]]]; try done.
  congruence.
Qed.

Lemma getitem0_truthy v x : py.getitem0 v = Return x → py.truthy v = true.
Proof.
  destruct v as [|s| | |l|]; simpl; try done.
  - by destruct s.
  - by destruct l.
Qed.

Lemma missing_required_raises d :
  missing_required d →
  ∃ e, services._convert_to_ec2_instance (VDict d) = Raise e ∧ translation_error e.
Proof.
  intros Hmiss.
  destruct (services._convert_to_ec2_instance (VDict d)) as [i|e] eqn:Hi.
  - exfalso.
    apply convert_Return_inv in Hi
      as (d' & _ & _ & [= <-] & _ & _ & Hid & Hty & Hst & _ & _ & _ & _ & Hlt).
    unfold state_name in Hst. simpl in Hst.
    destruct Hmiss as [Hm|[Hm|[Hm|[(st & Hm & Hname)|Hm]]]]; try congruence.
    + by rewrite Hm in Hst.
    + rewrite Hm in Hst. simpl in Hst. by rewrite Hname in Hst.
  - exists e. split; [done|]. by apply convert_raises in Hi.
Qed.

(** The counts [get_status_summary] accumulates. *)
Lemma status_count_lookup (l : list models.EC2Instance) st :
  foldl (fun status_count instance =>
           <[models.state instance :=
               default 0 (status_count !! models.state instance) + 1]>
             status_count)
        (∅ : gmap string nat) l !! st
  = if decide (in_state st l = 0) then None else Some (in_state st l).
Proof.
  unfold in_state. induction l as [|x l IH] using rev_ind; [done|].
  rewrite foldl_snoc, filter_app, length_app, filter_cons, filter_nil.
  destruct (decide (models.state x = st)) as [->|Hne].
  - rewrite lookup_insert_eq, IH. simpl.
    destruct (decide (length _ = 0)) as [->|Hn]; simpl.
    + done.
    + rewrite decide_False by lia. done.
  - rewrite lookup_insert_ne by done. rewrite IH. simpl.
    by rewrite Nat.add_0_r.
Qed.

Section directory.
Context {P : Type} `{Ec2Client P}.

Lemma get_instance_first_record instance_id (w : World P) response record :
  let c := describe_instances (Some [instance_id]) in
  (call_api c (provider w)).1 = Return response →
  first_record response = Return record →
  services.get_instance instance_id w
  = (services._convert_to_ec2_instance record, after c w).
Proof.
  intros c Hcall Hfirst. rewrite get_instance_run. fold c. rewrite Hcall.
  f_equal. rewrite Hfirst. unfold first_record in Hfirst.
  bind_inv Hfirst. rename a into reservations. rewrite Ha.
  bind_inv Hfirst. apply getitem0_truthy in Ha0.
  unfold mbind at 1, outcome_bind at 1. by rewrite Ha0.
Qed.

(** C1 (amended).  A record that lacks a required field is not
    translated: the translation raises, and what it raises is an exception
    of the translation itself, never an HTTP error.  When the tag dict
    builds and [State] is missing or a dict, it is the [KeyError] of the
    first missing key, in the order [InstanceId], [InstanceType], [State],
    [Name], [LaunchTime].  When [list_instances] reaches such a record, or
    [get_instance] reads it, that same exception leaves the operation
    unchanged: it is not swallowed, and it is not turned into the HTTP
    error of a failed provider query. *)
Theorem missing_field_fails_and_propagates (d : gmap string pyval)
    (Hmissing : missing_required d) :
  ∃ e, services._convert_to_ec2_instance (VDict d) = Raise e
       ∧ translation_error e
       ∧ (∀ code detail, e ≠ HTTPException code detail)
       ∧ (∀ tags,
            (tag_list ← py.get (VDict d) "Tags" (VList []) ≫= py.iter;
             services.tags_of tag_list) = Return tags →
            d !! "State" = None ∨ (∃ st, d !! "State" = Some (VDict st)) →
            ∃ key, first_missing d = Some key ∧ e = KeyError (VStr key))
       ∧ (∀ (w : World P) rd rsv groups before behind,
            (call_api (describe_instances None) (provider w)).1 = Return (VDict rd) →
            rd !! "Reservations" = Some (VList rsv) →
            Forall2 is_reservation rsv groups →
            concat groups = (before ++ VDict d :: behind)%list →
            Forall (fun r => ∃ i, services._convert_to_ec2_instance r = Return i)
                   before →
            services.list_instances w = (Raise e, after (describe_instances None) w))
       ∧ (∀ (w : World P) instance_id response,
            (call_api (describe_instances (Some [instance_id])) (provider w)).1
            = Return response →
            first_record response = Return (VDict d) →
            services.get_instance instance_id w
            = (Raise e, after (describe_instances (Some [instance_id])) w)).
Proof.
  destruct (missing_required_raises d Hmissing) as (e & He & Hkind).
  exists e. split; [done|]. split; [done|]. split; [by destruct e|].
  split; [|split].
  - intros tags Htags Hstate.
    destruct (missing_required_first d Hmissing Hstate) as [key Hkey].
    exists key. split; [done|].
    rewrite (first_missing_raises d tags key Htags Hkey) in He. by injection He as <-.
  - intros w rd rsv groups before behind Hcall Hrd Hshape Hrecords Hbefore.
    rewrite (list_instances_shaped w rd rsv groups Hcall Hrd Hshape), Hrecords.
    by rewrite (for_each_Raise _ before (VDict d) behind e Hbefore He).
  - intros w instance_id response Hcall Hfirst.
    by rewrite (get_instance_first_record instance_id w response (VDict d) Hcall Hfirst), He.
Qed.

(** C3.  The list handler keeps exactly the instances whose environment
    and instance type are equal, as strings, to each filter value supplied
    and not empty; a filter that is absent or empty keeps everything; with
    both filters the result is the intersection of the results of each
    filter alone. *)
Theorem list_filters_conjunction (environment instance_type : option string)
    (w w' : World P) (l : list models.EC2Instance)
    (Hl : services.list_instances w = (Return l, w')) :
  ec2.list_instances environment instance_type w
  = (Return (kept environment instance_type l), w')
  ∧ ec2.list_instances None None w = (Return l, w')
  ∧ ec2.list_instances (Some "") (Some "") w = (Return l, w')
  ∧ ∃ l_environment l_instance_type,
      ec2.list_instances environment None w = (Return l_environment, w')
      ∧ ec2.list_instances None instance_type w = (Return l_instance_type, w')
      ∧ kept environment instance_type l
        = filter (fun i => i ∈ l_instance_type) l_environment
      ∧ ∀ i, i ∈ kept environment instance_type l
             ↔ i ∈ l_environment ∧ i ∈ l_instance_type.
Proof.
  assert (∀ e t, ec2.list_instances e t w = (Return (kept e t l), w')) as Hrun.
  { intros e t. unfold ec2.list_instances, mbind, M_bind. rewrite Hl.
    unfold mret, M_ret. by rewrite <- handler_filters. }
  assert (∀ e t i, i ∈ kept e t l
            ↔ (satisfies e (models.environment i)
               ∧ satisfies t (Some (models.instance_type i))) ∧ i ∈ l) as Hin.
  { intros e t i. unfold kept. by rewrite list_elem_of_filter. }
  assert (∀ v, satisfies None v) as Hnone by by intros v s.
  assert (∀ v, satisfies (Some "") v) as Hempty by by intros v s [= <-].
  split; [apply Hrun|].
  split; [rewrite Hrun; unfold kept; by rewrite filter_all|].
  split; [rewrite Hrun; unfold kept; by rewrite filter_all|].
  exists (kept environment None l), (kept None instance_type l).
  split; [apply Hrun|]. split; [apply Hrun|]. split.
  - set (l_instance_type := kept None instance_type l).
    unfold kept. rewrite list_filter_filter. apply filter_ext_elem.
    intros i Hi. subst l_instance_type. rewrite Hin.
    pose proof (Hnone (Some (models.instance_type i))).
    pose proof (Hnone (models.environment i)). tauto.
  - intros i. rewrite !Hin.
    pose proof (Hnone (Some (models.instance_type i))).
    pose proof (Hnone (models.environment i)). tauto.
Qed.

(** C6.  On a response made of reservations, [list_instances] returns the
    translations of the records in the order of the response, reservation
    after reservation, and what the handler returns after filtering is a
    subsequence of that list: the relative order is kept. *)
Theorem list_keeps_provider_order (environment instance_type : option string)
    (w : World P) (rd : gmap string pyval) (rsv : list pyval)
    (groups : list (list pyval)) (l' : list models.EC2Instance)
    (Hcall : (call_api (describe_instances None) (provider w)).1 = Return (VDict rd))
    (Hrd : rd !! "Reservations" = Some (VList rsv))
    (Hshape : Forall2 is_reservation rsv groups)
    (Hl' : (ec2.list_instances environment instance_type w).1 = Return l') :
  ∃ l, (services.list_instances w).1 = Return l
       ∧ Forall2 (fun r i => services._convert_to_ec2_instance r = Return i)
                 (concat groups) l
       ∧ l' = kept environment instance_type l
       ∧ sublist l' l.
Proof.
  revert Hl'. unfold ec2.list_instances, mbind, M_bind.
  rewrite (list_instances_shaped w rd rsv groups Hcall Hrd Hshape).
  destruct (for_each _ (concat groups)) as [l|e] eqn:Hall; [|done].
  unfold mret, M_ret. rewrite handler_filters. simpl. intros [= <-].
  exists l. split; [done|]. split; [by apply for_each_Return|]. split; [done|].
  apply sublist_filter.
Qed.

(** C9.  The status summary counts the instances [list_instances]
    returns and maps every state that occurs among them to the number of
    instances in it; for two instances, one running and one stopped, it is
    [total_instances = 2] and [{"running": 1, "stopped": 1}]. *)
Theorem status_summary_counts (w w' : World P) (l : list models.EC2Instance)
    (Hl : services.list_instances w = (Return l, w')) :
  ∃ s, ec2.get_status_summary w = (Return s, w')
       ∧ ec2.total_instances s = length l
       ∧ (∀ st, ec2.status_breakdown s !! st
                = if decide (in_state st l = 0) then None else Some (in_state st l))
       ∧ (∀ i1 i2, l = [i1; i2] →
            models.state i1 = "running" → models.state i2 = "stopped" →
            ec2.total_instances s = 2
            ∧ ec2.status_breakdown s = {[ "running" := 1; "stopped" := 1 ]}).
Proof.
  unfold ec2.get_status_summary, mbind, M_bind. rewrite Hl.
  unfold utcnow, mret, M_ret. eexists. split; [done|]. simpl.
  split; [done|]. split; [apply status_count_lookup|].
  intros i1 i2 -> H1 H2. split; [done|]. simpl. rewrite H1, H2.
  apply map_eq. intros st. by vm_compute.
Qed.

End directory.

(** ** The contract on the test double *)

Section on_the_test_double.

Lemma missing_field_witness :
  ∃ e, services._convert_to_ec2_instance (VDict fake.no_launch_time) = Raise e
       ∧ e = KeyError (VStr "LaunchTime")
       ∧ services.list_instances (fake.world [fake.i1; VDict fake.no_launch_time] None)
         = (Raise e, after (describe_instances None)
                       (fake.world [fake.i1; VDict fake.no_launch_time] None))
       ∧ (services.get_instance "i-9"
            (fake.world [fake.i1; VDict fake.no_launch_time] None)).1 = Raise e.
Proof.
  assert (missing_required fake.no_launch_time) as Hmissing.
  { do 4 right. reflexivity. }
  destruct (missing_field_fails_and_propagates (P:=fake.provider)
              fake.no_launch_time Hmissing)
    as (e & He & _ & _ & Hkey & Hlist & Hget).
  exists e. split; [exact He|]. split.
  { destruct (Hkey ∅) as (key & Hfirst & ->).
    - vm_compute. reflexivity.
    - right. eexists. vm_compute. reflexivity.
    - vm_compute in Hfirst. by injection Hfirst as <-. }
  split.
  - apply (Hlist _ {[ "Reservations" :=
               VList [VDict {[ "Instances" := VList [fake.i1] ]};
                      VDict {[ "Instances" := VList [VDict fake.no_launch_time] ]}] ]}
             [VDict {[ "Instances" := VList [fake.i1] ]};
              VDict {[ "Instances" := VList [VDict fake.no_launch_time] ]}]
             [[fake.i1]; [VDict fake.no_launch_time]] [fake.i1] []).
    + vm_compute. reflexivity.
    + vm_compute. reflexivity.
    + repeat constructor; eexists; (split; [reflexivity|vm_compute; reflexivity]).
    + reflexivity.
    + repeat constructor. eexists. vm_compute. reflexivity.
  - erewrite Hget; [reflexivity| |].
    + vm_compute. reflexivity.
    + vm_compute. reflexivity.
Defined.

(** A record without launch time stops [list_instances] and
    [get_instance] with the [KeyError] of the translation, not with an
    [HTTPException]. *)
Lemma missing_field_not_query_failed :
  let w := fake.world [fake.i1; VDict fake.no_launch_time] None in
  missing_required fake.no_launch_time
  ∧ (services.list_instances w).1 = Raise (KeyError (VStr "LaunchTime"))
  ∧ (services.get_instance "i-9" w).1 = Raise (KeyError (VStr "LaunchTime"))
  ∧ ∀ code detail,
      (services.list_instances w).1 ≠ Raise (HTTPException code detail)
      ∧ (services.get_instance "i-9" w).1 ≠ Raise (HTTPException code detail).
Proof.
  split; [do 4 right; reflexivity|].
  split; [vm_compute; reflexivity|]. split; [vm_compute; reflexivity|].
  intros code detail. split; vm_compute; discriminate.
Qed.

Lemma instance_id_witness :
  (∃ e, services._convert_to_ec2_instance (VDict fake.no_id) = Raise e)
  ∧ ∀ i, services._convert_to_ec2_instance fake.i1 = Return i →
         models.instance_id i = "i-1".
Proof.
  split.
  - destruct (instance_id_verbatim fake.no_id) as [Hfail _].
    destruct Hfail as (e & He & _); [reflexivity|]. by exists e.
  - intros i Hi.
    destruct (instance_id_verbatim (fake.fields "i-1" "t2.micro" "running"
                                      [("Environment", "prod")])) as [_ Hid].
    specialize (Hid i Hi).
    assert (Some (VStr "i-1") = Some (VStr (models.instance_id i))) as Heq
      by exact Hid.
    by injection Heq as <-.
Defined.

(** A record whose identifier is the empty string is accepted, and the
    instance has the empty id. *)
Lemma empty_id_accepted :
  ∃ i, services._convert_to_ec2_instance fake.empty_id = Return i
       ∧ models.instance_id i = "".
Proof. eexists. split; [vm_compute; reflexivity|reflexivity]. Qed.

Lemma list_filters_witness :
  ∃ l w',
    services.list_instances fake.two = (Return l, w')
    ∧ ec2.list_instances (Some "prod") (Some "t2.micro") fake.two
      = (Return (kept (Some "prod") (Some "t2.micro") l), w')
    ∧ length (kept (Some "prod") (Some "t2.micro") l) = 1.
Proof.
  eexists _, _. split; [vm_compute; reflexivity|]. split.
  - apply (list_filters_conjunction (P:=fake.provider)). vm_compute. reflexivity.
  - vm_compute. reflexivity.
Defined.

Lemma get_instance_witness :
  (services.get_instance "i-2" fake.two).1
  = services._convert_to_ec2_instance fake.i2
  ∧ (services.get_instance "i-7" fake.two).1
    = Raise (HTTPException 404 "Instance i-7 not found").
Proof.
  split.
  - destruct (get_instance_contract (P:=fake.provider) "i-2" fake.two)
      as (_ & _ & _ & _ & Hfirst).
    eapply Hfirst; vm_compute; reflexivity.
  - destruct (get_instance_contract (P:=fake.provider) "i-7" fake.two)
      as (_ & Hnone & _).
    eapply Hnone; vm_compute; reflexivity.
Defined.

(** With the network down the describe call raises an exception that is
    not a [ClientError]; [get_instance] lets it through as it is, not as
    an [HTTPException]. *)
Lemma get_instance_other_error :
  (call_api (describe_instances (Some ["i-1"])) (provider fake.unreachable)).1
  = Raise (OtherError "EndpointConnectionError")
  ∧ (services.get_instance "i-1" fake.unreachable).1
    = Raise (OtherError "EndpointConnectionError")
  ∧ ∀ code detail,
      (services.get_instance "i-1" fake.unreachable).1
      ≠ Raise (HTTPException code detail).
Proof.
  split; [reflexivity|]. split; [vm_compute; reflexivity|].
  intros code detail. vm_compute. discriminate.
Qed.

Lemma lifecycle_witness :
  services.stop_instance "i-1" fake.two
  = services.get_instance "i-1" (after (stop_instances ["i-1"]) fake.two)
  ∧ calls (services.stop_instance "i-1" fake.two).2
    = [stop_instances ["i-1"]; describe_instances (Some ["i-1"])].
Proof.
  destruct (lifecycle_forwards_then_reads (P:=fake.provider) stop "i-1" fake.two)
    as (Hcalls & _ & Hget & _).
  split.
  - apply (Hget (VDict ∅)). vm_compute. reflexivity.
  - exact Hcalls.
Defined.

Lemma list_order_witness :
  ∃ l, (services.list_instances fake.two).1 = Return l
       ∧ Forall2 (fun r i => services._convert_to_ec2_instance r = Return i)
                 [fake.i1; fake.i2] l
       ∧ sublist (kept (Some "dev") None l) l.
Proof.
  edestruct (list_keeps_provider_order (P:=fake.provider) (Some "dev") None fake.two
               {[ "Reservations" :=
                    VList [VDict {[ "Instances" := VList [fake.i1] ]};
                           VDict {[ "Instances" := VList [fake.i2] ]}] ]}
               [VDict {[ "Instances" := VList [fake.i1] ]};
                VDict {[ "Instances" := VList [fake.i2] ]}]
               [[fake.i1]; [fake.i2]])
    as (l & Hl & Hall & Hkept & Hsub).
  - vm_compute. reflexivity.
  - vm_compute. reflexivity.
  - repeat constructor; eexists; (split; [reflexivity|vm_compute; reflexivity]).
  - vm_compute. reflexivity.
  - exists l. split; [exact Hl|]. split; [exact Hall|].
    rewrite <- Hkept. exact Hsub.
Defined.

Lemma optional_fields_witness :
  ∃ i, services._convert_to_ec2_instance fake.i1 = Return i
       ∧ models.public_ip i = Some "" ∧ models.private_ip i = Some ""
       ∧ models.name i = Some "".
Proof.
  eexists. split; [vm_compute; reflexivity|].
  edestruct (optional_fields_default
               (fake.fields "i-1" "t2.micro" "running" [("Environment", "prod")]))
    as (Hpublic & Hprivate & _ & Htags & _).
  - vm_compute. reflexivity.
  - split; [apply Hpublic; left; reflexivity|].
    split; [apply Hprivate; left; reflexivity|].
    eapply Htags; [reflexivity|].
    intros tag Htag Hkey. apply list_elem_of_singleton in Htag as ->.
    vm_compute in Hkey. discriminate.
Defined.

(** A record whose public address and [Name] tag value are [None] is
    accepted, and the instance has [None] in both fields, not [""]. *)
Lemma null_value_stays_null :
  ∃ i, services._convert_to_ec2_instance (VDict fake.nulls) = Return i
       ∧ models.public_ip i = None
       ∧ models.name i = None.
Proof. eexists. split; [vm_compute; reflexivity|]. by split. Qed.

Lemma update_instance_tags_witness :
  ec2.post_tags "i-1" (Some (VDict {[ "team" := VStr "ops" ]})) fake.two
  = (Raise (HTTPException 501 "Tag update functionality not implemented yet"),
     fake.two).
Proof.
  destruct (update_instance_tags_not_implemented (P:=fake.provider) "i-1"
              (Some (VDict {[ "team" := VStr "ops" ]})) fake.two)
    as (Hworld & Hobject & _).
  destruct (Hobject {[ "team" := VStr "ops" ]} eq_refl) as [_ <-].
  reflexivity.
Defined.

(** A body that is a JSON list does not get the 501 error: the request
    fails the validation of the body. *)
Lemma list_body_is_not_501 :
  (ec2.post_tags "i-1" (Some (VList [VStr "team"])) fake.two).1
  = Raise ValidationError
  ∧ (ec2.post_tags "i-1" None fake.two).1 = Raise ValidationError
  ∧ ∀ detail,
      (ec2.post_tags "i-1" (Some (VList [VStr "team"])) fake.two).1
      ≠ Raise (HTTPException 501 detail).
Proof. split; [done|]. split; [done|]. intros detail. discriminate. Qed.

Lemma status_summary_witness :
  ∃ s w', ec2.get_status_summary fake.two = (Return s, w')
          ∧ ec2.total_instances s = 2
          ∧ ec2.status_breakdown s = {[ "running" := 1; "stopped" := 1 ]}.
Proof.
  edestruct (status_summary_counts (P:=fake.provider) fake.two)
    as (s & Hs & _ & _ & Htwo).
  - vm_compute. reflexivity.
  - exists s. eexists. split; [exact Hs|].
    eapply Htwo; reflexivity.
Defined.

Lemma duplicate_tag_witness :
  ∃ i, services._convert_to_ec2_instance (VDict fake.renamed) = Return i
       ∧ models.name i = Some "new".
Proof.
  assert (∃ i, services._convert_to_ec2_instance (VDict fake.renamed) = Return i)
    as [i Hi] by (eexists; vm_compute; reflexivity).
  exists i. split; [exact Hi|].
  destruct (duplicate_tag_last_wins fake.renamed i
              [VDict (list_to_map [("Key", VStr "Name"); ("Value", VStr "old")])]
              [] (VDict (list_to_map [("Key", VStr "Name"); ("Value", VStr "new")]))
              "Name" (VStr "new") Hi) as [Hname _].
  - reflexivity.
  - reflexivity.
  - reflexivity.
  - intros t Ht. by apply elem_of_nil in Ht.
  - specialize (Hname eq_refl). simpl in Hname. by injection Hname as <-.
Defined.

End on_the_test_double.

(** ** Further properties of the service operations *)

Section service_outcomes.
Context {P : Type} `{Ec2Client P}.

(** X1.  [list_instances] makes one call, [describe_instances] without
    identifiers.  A [ClientError] of the call becomes the 400 "Failed to list
    instances" with its message, any other exception passes through, a
    response without [Reservations] raises the [KeyError], and a response
    with no reservation gives the empty list. *)
Theorem list_instances_outcomes (w : World P) :
  let c := describe_instances None in
  let r := (call_api c (provider w)).1 in
  let result := services.list_instances w in
  result.2 = after c w
  ∧ (∀ msg, r = Raise (ClientError msg) →
       result.1 = Raise (HTTPException 400 ("Failed to list instances: " ++ msg)))
  ∧ (∀ e, r = Raise e → (∀ msg, e ≠ ClientError msg) → result.1 = Raise e)
  ∧ (∀ d, r = Return (VDict d) → d !! "Reservations" = None →
       result.1 = Raise (KeyError (VStr "Reservations")))
  ∧ (∀ d, r = Return (VDict d) → d !! "Reservations" = Some (VList []) →
       result.1 = Return []).
Proof.
  intros c r result. unfold result. rewrite list_instances_run. fold c r. simpl.
  split; [done|]. split; [|split; [|split]].
  - by intros msg ->.
  - intros e -> Hne. destruct e; try done. by destruct (Hne msg).
  - intros d -> Hd. simpl. by rewrite Hd.
  - intros d -> Hd. simpl. by rewrite Hd.
Qed.

(** X2.  Responses [get_instance] does not expect.  A [Reservations] value
    that is false in Python ([None], an empty list, dict or string) gives
    the 404 "not found"; a response without [Reservations], or a first
    reservation without [Instances], raises the [KeyError] of the key; a
    first reservation with an empty instance list raises [IndexError]. *)
Theorem get_instance_odd_responses (instance_id : string) (w : World P)
    (d : gmap string pyval)
    (Hcall : (call_api (describe_instances (Some [instance_id])) (provider w)).1
             = Return (VDict d)) :
  let result := (services.get_instance instance_id w).1 in
  (∀ v, d !! "Reservations" = Some v → py.truthy v = false →
     result = Raise (HTTPException 404 ("Instance " ++ instance_id ++ " not found")))
  ∧ (d !! "Reservations" = None → result = Raise (KeyError (VStr "Reservations")))
  ∧ (∀ rd rest, d !! "Reservations" = Some (VList (VDict rd :: rest)) →
       (rd !! "Instances" = None → result = Raise (KeyError (VStr "Instances")))
       ∧ (rd !! "Instances" = Some (VList []) → result = Raise IndexError)).
Proof.
  intros result. unfold result. rewrite get_instance_run. simpl. rewrite Hcall.
  unfold first_record. simpl.
  split; [|split].
  - intros v Hd Hv. rewrite Hd. simpl. by rewrite Hv.
  - intros Hd. by rewrite Hd.
  - intros rd rest Hd. rewrite Hd. simpl.
    split; intros Hrd; by rewrite Hrd.
Qed.

(** X3.  When the mutating call of start, stop or terminate raises, the
    instance is not read afterwards: the log ends with that call.  A
    [ClientError] becomes the 400 "Failed to <verb> instance <id>" with its
    message; any other exception passes through. *)
Theorem lifecycle_failure (op : lifecycle) (instance_id : string) (w : World P)
    (e : exn)
    (Hcall : (call_api (mutation op instance_id) (provider w)).1 = Raise e) :
  let c := mutation op instance_id in
  (perform op instance_id w).2 = after c w
  ∧ (∀ msg, e = ClientError msg →
       (perform op instance_id w).1
       = Raise (HTTPException 400
                  ("Failed to " ++ verb op ++ " instance " ++ instance_id ++ ": " ++ msg)))
  ∧ ((∀ msg, e ≠ ClientError msg) → (perform op instance_id w).1 = Raise e).
Proof.
  intros c. subst c. rewrite perform_run. cbv zeta. rewrite Hcall.
  split; [by destruct e|]. split.
  - intros msg ->. by destruct op.
  - intros Hne. destruct e; try done. by destruct (Hne msg).
Qed.

End service_outcomes.

(** ** Further properties of the translator *)

(** X4.  The translation reads seven keys of the record and nothing else:
    setting or removing any other key leaves its outcome as it is. *)
Theorem other_keys_ignored (d : gmap string pyval) (k : string) (v : pyval)
    (Hk : k ∉ read_keys) :
  services._convert_to_ec2_instance (VDict (<[k := v]> d))
  = services._convert_to_ec2_instance (VDict d)
  ∧ services._convert_to_ec2_instance (VDict (delete k d))
    = services._convert_to_ec2_instance (VDict d).
Proof.
  assert (∀ key, key ∈ read_keys → k ≠ key) as Hne by (intros key Hin ->; done).
  unfold services._convert_to_ec2_instance. simpl.
  split.
  - rewrite !lookup_insert_ne; [done|apply Hne; unfold read_keys; set_solver..].
  - rewrite !lookup_delete_ne; [done|apply Hne; unfold read_keys; set_solver..].
Qed.

(** Two runs of the tag loop from dicts that agree at a key end alike: with
    the same exception, or with dicts that agree at the key. *)
Lemma tags_loop_agree (key : hkey) l (acc1 acc2 : gmap hkey pyval) :
  acc1 !! key = acc2 !! key →
  match
    for_in l
      (fun tag tags =>
         k ← py.getitem tag "Key";
         v ← py.getitem tag "Value";
         h ← services.hash_key k;
         Return (<[h := v]> tags)) acc1,
    for_in l
      (fun tag tags =>
         k ← py.getitem tag "Key";
         v ← py.getitem tag "Value";
         h ← services.hash_key k;
         Return (<[h := v]> tags)) acc2
  with
  | Return m1, Return m2 => m1 !! key = m2 !! key
  | Raise e1, Raise e2 => e1 = e2
  | _, _ => False
  end.
Proof.
  revert acc1 acc2. induction l as [|tag l IH]; intros acc1 acc2 Hacc; simpl; [done|].
  unfold mbind, outcome_bind in *.
  destruct (py.getitem tag "Key") as [k|e]; [|done].
  destruct (py.getitem tag "Value") as [v|e]; [|done].
  destruct (services.hash_key k) as [h|e]; [|done].
  apply IH. destruct (decide (h = key)) as [->|Hne].
  - by rewrite !lookup_insert_eq.
  - by rewrite !lookup_insert_ne.
Qed.

(** X5.  Tags with keys other than [Name] and [Environment] do not count:
    putting one anywhere in the tag list leaves the outcome of the
    translation as it is. *)
Theorem other_tags_ignored (d : gmap string pyval) (l1 l2 : list pyval)
    (tag k v : pyval) (h : hkey)
    (Htags : d !! "Tags" = Some (VList (l1 ++ l2)))
    (Hkey : py.getitem tag "Key" = Return k)
    (Hvalue : py.getitem tag "Value" = Return v)
    (Hhash : services.hash_key k = Return h)
    (Hname : h ≠ HStr "Name")
    (Henvironment : h ≠ HStr "Environment") :
  services._convert_to_ec2_instance (VDict (<["Tags" := VList (l1 ++ tag :: l2)]> d))
  = services._convert_to_ec2_instance (VDict d).
Proof.
  rewrite !convert_by_tags.
  assert (∀ n e, translate_with (VDict (<["Tags" := VList (l1 ++ tag :: l2)]> d)) n e
                 = translate_with (VDict d) n e) as Hrest.
  { intros n e. unfold translate_with. simpl. by rewrite !lookup_insert_ne. }
  assert (py.get (VDict (<["Tags" := VList (l1 ++ tag :: l2)]> d)) "Tags" (VList [])
            ≫= py.iter = Return (l1 ++ tag :: l2)%list) as ->.
  { simpl. by rewrite lookup_insert_eq. }
  assert (py.get (VDict d) "Tags" (VList []) ≫= py.iter = Return (l1 ++ l2)%list) as ->.
  { simpl. by rewrite Htags. }
  unfold mbind at 1 3, outcome_bind at 1 3. cbv beta iota.
  unfold services.tags_of. rewrite !for_in_app.
  match goal with |- context [for_in l1 ?b ?a] => destruct (for_in l1 b a) as [m|e0] end;
    [|done].
  simpl. rewrite Hkey, Hvalue. simpl. rewrite Hhash. simpl.
  pose proof (tags_loop_agree (HStr "Name") l2 (<[h := v]> m) m) as Hn.
  pose proof (tags_loop_agree (HStr "Environment") l2 (<[h := v]> m) m) as He.
  rewrite lookup_insert_ne in Hn by done. rewrite lookup_insert_ne in He by done.
  specialize (Hn eq_refl). specialize (He eq_refl).
  match goal with |- context [for_in l2 ?b (<[h := v]> m)] =>
    destruct (for_in l2 b (<[h := v]> m)) as [m1|e1] end;
  match goal with |- context [for_in l2 ?b m] =>
    destruct (for_in l2 b m) as [m2|e2] end; try done.
  - simpl. unfold services.tags_get. by rewrite Hn, He, Hrest.
  - simpl. by rewrite Hn.
Qed.

(** The tag loop stops at the first tag it cannot store. *)
Lemma tags_of_stops l1 tag l2 m e :
  services.tags_of l1 = Return m →
  (k ← py.getitem tag "Key"; v ← py.getitem tag "Value"; services.hash_key k) = Raise e →
  services.tags_of (l1 ++ tag :: l2) = Raise e.
Proof.
  unfold services.tags_of. intros Hl1 Htag. rewrite for_in_app, Hl1. simpl.
  unfold mbind, outcome_bind in *.
  destruct (py.getitem tag "Key") as [k|e1]; [|congruence].
  destruct (py.getitem tag "Value") as [v|e1]; [|congruence].
  destruct (services.hash_key k) as [h|e1]; [done|congruence].
Qed.

(** X6.  The tags are read before anything else, and one bad tag is
    enough: when the tags before it are fine, a tag without [Key] or without
    [Value] raises the [KeyError] of that key, and a tag that is not a dict,
    or whose key is a list or a dict, raises [TypeError], whatever the rest
    of the record holds or lacks. *)
Theorem bad_tag_fails_first (d : gmap string pyval) (l1 l2 : list pyval)
    (tag : pyval) (m : gmap hkey pyval)
    (Htags : d !! "Tags" = Some (VList (l1 ++ tag :: l2)))
    (Hbefore : services.tags_of l1 = Return m) :
  let result := services._convert_to_ec2_instance (VDict d) in
  (∀ td, tag = VDict td → td !! "Key" = None → result = Raise (KeyError (VStr "Key")))
  ∧ (∀ td k, tag = VDict td → td !! "Key" = Some k → td !! "Value" = None →
       result = Raise (KeyError (VStr "Value")))
  ∧ (∀ td k v, tag = VDict td → td !! "Key" = Some k → td !! "Value" = Some v →
       (∃ l, k = VList l) ∨ (∃ kd, k = VDict kd) → result = Raise TypeError)
  ∧ ((∀ td, tag ≠ VDict td) → result = Raise TypeError).
Proof.
  intros result.
  assert (∀ e, (k ← py.getitem tag "Key"; v ← py.getitem tag "Value";
                services.hash_key k) = Raise e → result = Raise e) as Hstop.
  { intros e He. unfold result. rewrite convert_by_tags. simpl. rewrite Htags. simpl.
    unfold mbind at 1, outcome_bind at 1. cbv beta iota.
    by rewrite (tags_of_stops l1 tag l2 m e Hbefore He). }
  split; [|split; [|split]].
  - intros td -> Hk. apply Hstop. simpl. by rewrite Hk.
  - intros td k -> Hk Hv. apply Hstop. simpl. by rewrite Hk, Hv.
  - intros td k v -> Hk Hv Hunhashable. apply Hstop. simpl. rewrite Hk, Hv.
    by destruct Hunhashable as [[l ->]|[kd ->]].
  - intros Hnot. apply Hstop. destruct tag; try done. by destruct (Hnot d0).
Qed.

(** X7.  With the tag dict built, a record lacking required keys raises the
    [KeyError] of the first one lacking, in the order [InstanceId],
    [InstanceType], [State], [Name] inside [State], [LaunchTime]. *)
Theorem missing_key_is_named (d : gmap string pyval) (tags : gmap hkey pyval)
    (key : string)
    (Htags : (tag_list ← py.get (VDict d) "Tags" (VList []) ≫= py.iter;
              services.tags_of tag_list) = Return tags)
    (Hmissing : first_missing d = Some key) :
  services._convert_to_ec2_instance (VDict d) = Raise (KeyError (VStr key)).
Proof. exact (first_missing_raises d tags key Htags Hmissing). Qed.

Lemma getitem_tag_of kv :
  py.getitem (tag_of kv) "Key" = Return (VStr kv.1)
  ∧ py.getitem (tag_of kv) "Value" = Return (VStr kv.2).
Proof.
  unfold tag_of. simpl. rewrite lookup_insert_eq.
  rewrite lookup_insert_ne by done. by rewrite lookup_singleton_eq.
Qed.

Lemma last_value_snoc key kvs kv :
  last_value key (kvs ++ [kv])
  = if decide (kv.1 = key) then Some kv.2 else last_value key kvs.
Proof.
  unfold last_value. rewrite filter_app, filter_cons, filter_nil.
  destruct (decide (kv.1 = key)).
  - by rewrite last_snoc.
  - by rewrite app_nil_r.
Qed.

(** The dict built from string tags maps a key to the value of its last
    tag. *)
Lemma tags_of_pairs kvs :
  ∃ tags, services.tags_of (tag_of <$> kvs) = Return tags
          ∧ ∀ key, tags !! HStr key = VStr <$> last_value key kvs.
Proof.
  induction kvs as [|kv kvs (tags & Htags & Hlook)] using rev_ind.
  - exists ∅. split; [done|]. intros key. by rewrite lookup_empty.
  - exists (<[HStr kv.1 := VStr kv.2]> tags). split.
    + unfold services.tags_of in *. rewrite fmap_app, for_in_app, Htags.
      destruct (getitem_tag_of kv) as [Hk Hv].
      unfold mbind at 1, outcome_bind at 1. cbv beta iota.
      rewrite fmap_cons. cbn [for_in]. rewrite Hk, Hv. done.
    + intros key. rewrite last_value_snoc.
      destruct (decide (kv.1 = key)) as [<-|Hne].
      * by rewrite lookup_insert_eq.
      * rewrite lookup_insert_ne by congruence. apply Hlook.
Qed.

(** X8.  A record with the four required fields of the right types, string
    addresses or none, and string tags or none is translated, and the
    instance is read off the record: the fields as they are, [""] for an
    address that is absent, and for the name and the environment the value
    of the last tag with that key, [""] when there is none. *)
Theorem well_formed_record_translates (d sd : gmap string pyval)
    (id ty st : string) (t : Z) (public private : option string)
    (kvs : list (string * string))
    (Hid : d !! "InstanceId" = Some (VStr id))
    (Hty : d !! "InstanceType" = Some (VStr ty))
    (Hstate : d !! "State" = Some (VDict sd))
    (Hname : sd !! "Name" = Some (VStr st))
    (Htime : d !! "LaunchTime" = Some (VTime t))
    (Hpublic : d !! "PublicIpAddress" = VStr <$> public)
    (Hprivate : d !! "PrivateIpAddress" = VStr <$> private)
    (Htags : d !! "Tags" = Some (VList (tag_of <$> kvs))
             ∨ (d !! "Tags" = None ∧ kvs = [])) :
  services._convert_to_ec2_instance (VDict d)
  = Return {| models.instance_id := id;
              models.instance_type := ty;
              models.state := st;
              models.public_ip := Some (default "" public);
              models.private_ip := Some (default "" private);
              models.name := Some (default "" (last_value "Name" kvs));
              models.environment := Some (default "" (last_value "Environment" kvs));
              models.launch_time := t |}.
Proof.
  rewrite convert_by_tags.
  assert (py.get (VDict d) "Tags" (VList []) ≫= py.iter = Return (tag_of <$> kvs)) as ->.
  { simpl. destruct Htags as [->|[-> ->]]; done. }
  unfold mbind at 1, outcome_bind at 1. cbv beta iota.
  destruct (tags_of_pairs kvs) as (tags & -> & Hlook).
  unfold mbind at 1, outcome_bind at 1. cbv beta iota.
  unfold services.tags_get. rewrite !Hlook.
  unfold translate_with. simpl. rewrite Hid, Hty, Hstate, Htime, Hpublic, Hprivate.
  simpl. rewrite Hname. simpl.
  by destruct public, private, (last_value "Name" kvs), (last_value "Environment" kvs).
Qed.

(** ** Further properties of the handlers *)

Lemma counted_insert_fresh (m : gmap string nat) k v :
  m !! k = None → counted (<[k := v]> m) = v + counted m.
Proof. intros Hk. unfold counted. by rewrite map_to_list_insert. Qed.

Lemma counted_insert (m : gmap string nat) k v :
  counted (<[k := v]> m) + default 0 (m !! k) = v + counted m.
Proof.
  destruct (m !! k) as [v0|] eqn:Hk; simpl.
  - rewrite <- insert_delete_eq.
    rewrite counted_insert_fresh by apply lookup_delete_eq.
    unfold counted at 2. rewrite <- (map_to_list_delete m k v0 Hk).
    rewrite fmap_cons. simpl. unfold counted. lia.
  - rewrite counted_insert_fresh by done. lia.
Qed.

Section handler_outcomes.
Context {P : Type} `{Ec2Client P}.

(** X9.  In a status summary the counts of the breakdown add up to
    [total_instances]. *)
Theorem status_counts_add_up (w w' : World P) (s : ec2.summary)
    (Hs : ec2.get_status_summary w = (Return s, w')) :
  counted (ec2.status_breakdown s) = ec2.total_instances s.
Proof.
  revert Hs. unfold ec2.get_status_summary, mbind, M_bind.
  destruct (services.list_instances w) as [[l|e] w1]; [|done].
  unfold utcnow, mret, M_ret. intros [= <- _]. simpl.
  induction l as [|x l IH] using rev_ind; [done|].
  rewrite foldl_snoc, length_app. simpl.
  match goal with |- counted (<[?k := ?v]> ?m) = _ =>
    pose proof (counted_insert m k v) as Hsum end.
  rewrite IH in Hsum. lia.
Qed.

(** X10.  The list handler and the status summary make one call each,
    [describe_instances] without identifiers, whatever the filters: the
    filter values never reach the provider.  An exception of
    [list_instances] leaves both handlers as it is. *)
Theorem handlers_describe_once (environment instance_type : option string)
    (w : World P) :
  (ec2.list_instances environment instance_type w).2
  = after (describe_instances None) w
  ∧ (ec2.get_status_summary w).2 = after (describe_instances None) w
  ∧ ∀ e, (services.list_instances w).1 = Raise e →
         (ec2.list_instances environment instance_type w).1 = Raise e
         ∧ (ec2.get_status_summary w).1 = Raise e.
Proof.
  pose proof (list_instances_run w) as Hrun. simpl in Hrun.
  unfold ec2.list_instances, ec2.get_status_summary, mbind, M_bind.
  destruct (services.list_instances w) as [[l|e] w1].
  - injection Hrun as _ ->. by split; [|split].
  - injection Hrun as _ ->. split; [done|]. split; [done|].
    by intros e' [= ->].
Qed.

End handler_outcomes.

(** ** Creation *)

Section creation.
Context {P : Type} `{Ec2Client P} `{Ec2Launcher P}.

(** The outcome of [create_instance], by what the launch did. *)
Lemma create_instance_run (request : EC2InstanceRequest.t) (w : World P) :
  services.create_instance request w =
  match (run_instances (launch_kwargs request) (provider w)).1 with
  | Return response =>
      match (instances ← py.getitem response "Instances";
             instance ← py.getitem0 instances;
             py.getitem instance "InstanceId") with
      | Return instance_id =>
          services.get_launched instance_id (launched (launch_kwargs request) w)
      | Raise e => (Raise e, launched (launch_kwargs request) w)
      end
  | Raise (ClientError msg) =>
      (Raise (HTTPException 400 ("Failed to create instance: " ++ msg)),
       launched (launch_kwargs request) w)
  | Raise e => (Raise e, launched (launch_kwargs request) w)
  end.
Proof.
  unfold services.create_instance, try_except_ClientError.
  unfold mbind at 1, M_bind. unfold launch, launched.
  change (Build_run_instances_kwargs _ _ _ _ _ _ _) with (launch_kwargs request).
  destruct (run_instances (launch_kwargs request) (provider w)) as [[response|e] p'];
    simpl; [|by destruct e].
  unfold mbind at 1, M_bind, lift.
  match goal with |- context [match ?m with Return _ => _ | Raise _ => _ end] =>
    assert (raises_only translation_error m) as Hr by raises_steps;
    destruct m as [instance_id|e]
  end.
  - unfold services.get_launched. destruct instance_id as [|s| | | |]; try done.
    pose proof (get_instance_no_ClientError s (Build_World p' (calls w) (clock w)))
      as Hno.
    destruct (services.get_instance s _) as [[i|e] w']; [done|].
    destruct e; try done. by destruct (Hno msg).
  - specialize (Hr e eq_refl). by destruct e.
Qed.

(** X11.  [create_instance] launches once, with the image, type and key of
    the request, its one security group, counts of 1 and the tags [Name]
    and [Environment].  A [ClientError] of the launch becomes the 400
    "Failed to create instance" with its message and any other exception
    passes through; when the launch returns, the operation is [get_instance]
    of the first identifier of the response, and a response with no
    instance raises [IndexError]. *)
Theorem create_instance_outcomes (request : EC2InstanceRequest.t) (w : World P) :
  let r := (run_instances (launch_kwargs request) (provider w)).1 in
  let w1 := launched (launch_kwargs request) w in
  let result := services.create_instance request w in
  (∀ msg, r = Raise (ClientError msg) →
     result = (Raise (HTTPException 400 ("Failed to create instance: " ++ msg)), w1))
  ∧ (∀ e, r = Raise e → (∀ msg, e ≠ ClientError msg) → result = (Raise e, w1))
  ∧ (∀ d rd rest instance_id,
       r = Return (VDict d) →
       d !! "Instances" = Some (VList (VDict rd :: rest)) →
       rd !! "InstanceId" = Some (VStr instance_id) →
       result = services.get_instance instance_id w1)
  ∧ (∀ d, r = Return (VDict d) → d !! "Instances" = Some (VList []) →
       result = (Raise IndexError, w1)).
Proof.
  intros r w1 result. unfold result. rewrite create_instance_run. fold r w1.
  split; [|split; [|split]].
  - by intros msg ->.
  - intros e -> Hne. destruct e; try done. by destruct (Hne msg).
  - intros d rd rest instance_id -> Hd Hrd. simpl. rewrite Hd. simpl. by rewrite Hrd.
  - intros d -> Hd. simpl. by rewrite Hd.
Qed.

(** X12.  The create handler fails with status 400 and nothing else: every
    exception of the service, its own HTTP errors included, is replaced by
    the 400 "Failed to create instance" around the text of the exception.
    So an instance launched but not yet reported by the provider, a 404 for
    [get_instance], is a 400 here. *)
Theorem create_handler_only_400 (str : exn → string) (request : EC2InstanceRequest.t)
    (w : World P) :
  (∀ e, (ec2.create_instance str request w).1 = Raise e →
     ∃ e', (services.create_instance request w).1 = Raise e'
           ∧ e = HTTPException 400 ("Failed to create instance: " ++ str e'))
  ∧ (∀ i, (services.create_instance request w).1 = Return i →
       (ec2.create_instance str request w).1 = Return i)
  ∧ (ec2.create_instance str request w).2 = (services.create_instance request w).2
  ∧ (∀ d rd rest instance_id dd,
       (run_instances (launch_kwargs request) (provider w)).1 = Return (VDict d) →
       d !! "Instances" = Some (VList (VDict rd :: rest)) →
       rd !! "InstanceId" = Some (VStr instance_id) →
       (call_api (describe_instances (Some [instance_id]))
                 (provider (launched (launch_kwargs request) w))).1
       = Return (VDict dd) →
       dd !! "Reservations" = Some (VList []) →
       (ec2.create_instance str request w).1
       = Raise (HTTPException 400
                  ("Failed to create instance: "
                   ++ str (HTTPException 404
                             ("Instance " ++ instance_id ++ " not found"))))).
Proof.
  unfold ec2.create_instance, try_except_Exception, raise.
  split; [|split; [|split]].
  - intros e. destruct (services.create_instance request w) as [[i|e'] w']; [done|].
    simpl. intros [= <-]. by exists e'.
  - intros i. by destruct (services.create_instance request w) as [[i'|e'] w'].
  - by destruct (services.create_instance request w) as [[i'|e'] w'].
  - intros d rd rest instance_id dd Hlaunch Hd Hrd Hdescribe Hdd.
    rewrite create_instance_run, Hlaunch. simpl. rewrite Hd. simpl. rewrite Hrd. simpl.
    rewrite get_instance_run. simpl. simpl in Hdescribe. rewrite Hdescribe.
    simpl. by rewrite Hdd.
Qed.

End creation.

(** ** The further properties on the test double *)

Lemma list_instances_outcomes_witness :
  (services.list_instances fake.refusing).1
  = Raise (HTTPException 400 "Failed to list instances: UnauthorizedOperation")
  ∧ (services.list_instances fake.unreachable).1
    = Raise (OtherError "EndpointConnectionError")
  ∧ (services.list_instances (fake.world [] None)).1 = Return [].
Proof.
  split; [|split].
  - destruct (list_instances_outcomes (P:=fake.provider) fake.refusing)
      as (_ & Hclient & _).
    apply (Hclient "UnauthorizedOperation"). reflexivity.
  - destruct (list_instances_outcomes (P:=fake.provider) fake.unreachable)
      as (_ & _ & Hother & _).
    apply Hother; [reflexivity|]. intros msg. discriminate.
  - destruct (list_instances_outcomes (P:=fake.provider) (fake.world [] None))
      as (_ & _ & _ & _ & Hempty).
    eapply Hempty; vm_compute; reflexivity.
Defined.

Lemma get_instance_odd_responses_witness :
  (services.get_instance "i-7" fake.two).1
  = Raise (HTTPException 404 "Instance i-7 not found").
Proof.
  edestruct (get_instance_odd_responses (P:=fake.provider) "i-7" fake.two)
    as (Hfalse & _).
  - vm_compute. reflexivity.
  - eapply Hfalse; vm_compute; reflexivity.
Defined.

Lemma lifecycle_failure_witness :
  (services.terminate_instance "i-1" fake.refusing).1
  = Raise (HTTPException 400
             "Failed to terminate instance i-1: UnauthorizedOperation")
  ∧ calls (services.terminate_instance "i-1" fake.refusing).2
    = [terminate_instances ["i-1"]].
Proof.
  assert ((call_api (mutation terminate "i-1") (provider fake.refusing)).1
          = Raise (ClientError "UnauthorizedOperation")) as Hcall
    by (vm_compute; reflexivity).
  destruct (lifecycle_failure (P:=fake.provider) terminate "i-1" fake.refusing
              (ClientError "UnauthorizedOperation") Hcall)
    as (Hworld & Hclient & _).
  split.
  - apply (Hclient "UnauthorizedOperation"). reflexivity.
  - change (services.terminate_instance "i-1" fake.refusing)
      with (perform terminate "i-1" fake.refusing).
    rewrite Hworld. reflexivity.
Defined.

Lemma other_keys_ignored_witness :
  services._convert_to_ec2_instance
    (VDict (<["Placement" := VStr "eu-west-1a"]>
              (fake.fields "i-1" "t2.micro" "running" [("Environment", "prod")])))
  = services._convert_to_ec2_instance fake.i1.
Proof.
  apply (other_keys_ignored
           (fake.fields "i-1" "t2.micro" "running" [("Environment", "prod")])
           "Placement" (VStr "eu-west-1a")).
  apply (bool_decide_unpack _). vm_compute. exact I.
Defined.

Lemma other_tags_ignored_witness :
  services._convert_to_ec2_instance
    (VDict (<["Tags" := VList [tag_of ("Owner", "ops"); tag_of ("Environment", "prod")]]>
              (fake.fields "i-1" "t2.micro" "running" [("Environment", "prod")])))
  = services._convert_to_ec2_instance fake.i1.
Proof.
  apply (other_tags_ignored
           (fake.fields "i-1" "t2.micro" "running" [("Environment", "prod")])
           [] [tag_of ("Environment", "prod")] (tag_of ("Owner", "ops"))
           (VStr "Owner") (VStr "ops") (HStr "Owner")).
  - vm_compute. reflexivity.
  - vm_compute. reflexivity.
  - vm_compute. reflexivity.
  - reflexivity.
  - discriminate.
  - discriminate.
Defined.

Lemma bad_tag_fails_first_witness :
  services._convert_to_ec2_instance
    (VDict (<["Tags" := VList [tag_of ("Name", "web"); VDict {[ "Key" := VStr "Owner" ]}]]>
              fake.no_id))
  = Raise (KeyError (VStr "Value")).
Proof.
  edestruct (bad_tag_fails_first
               (<["Tags" := VList [tag_of ("Name", "web");
                                   VDict {[ "Key" := VStr "Owner" ]}]]> fake.no_id)
               [tag_of ("Name", "web")] [] (VDict {[ "Key" := VStr "Owner" ]}))
    as (_ & Hvalue & _).
  - vm_compute. reflexivity.
  - vm_compute. reflexivity.
  - eapply Hvalue; [reflexivity| |]; vm_compute; reflexivity.
Defined.

Lemma missing_key_is_named_witness :
  services._convert_to_ec2_instance (VDict fake.no_launch_time)
  = Raise (KeyError (VStr "LaunchTime")).
Proof.
  eapply (missing_key_is_named fake.no_launch_time); vm_compute; reflexivity.
Defined.

Lemma well_formed_record_translates_witness :
  services._convert_to_ec2_instance (VDict fake.renamed)
  = Return {| models.instance_id := "i-3";
              models.instance_type := "t2.micro";
              models.state := "running";
              models.public_ip := Some "";
              models.private_ip := Some "";
              models.name := Some "new";
              models.environment := Some "";
              models.launch_time := 1700000000 |}.
Proof.
  apply (well_formed_record_translates fake.renamed
           (list_to_map [("Code", VInt 16); ("Name", VStr "running")])
           "i-3" "t2.micro" "running" 1700000000 None None
           [("Name", "old"); ("Name", "new")]).
  - vm_compute. reflexivity.
  - vm_compute. reflexivity.
  - vm_compute. reflexivity.
  - vm_compute. reflexivity.
  - vm_compute. reflexivity.
  - vm_compute. reflexivity.
  - vm_compute. reflexivity.
  - left. vm_compute. reflexivity.
Defined.

Lemma status_counts_add_up_witness :
  ∃ s, (ec2.get_status_summary fake.two).1 = Return s
       ∧ counted (ec2.status_breakdown s) = 2.
Proof.
  assert (∃ s w', ec2.get_status_summary fake.two = (Return s, w')) as (s & w' & Hs)
    by (eexists _, _; vm_compute; reflexivity).
  exists s. split; [by rewrite Hs|].
  rewrite (status_counts_add_up (P:=fake.provider) fake.two w' s Hs).
  revert Hs. vm_compute. by intros [= <- _].
Defined.

Lemma handlers_describe_once_witness :
  calls (ec2.list_instances (Some "prod") (Some "t2.micro") fake.two).2
  = [describe_instances None]
  ∧ (ec2.get_status_summary fake.unreachable).1
    = Raise (OtherError "EndpointConnectionError").
Proof.
  split.
  - destruct (handlers_describe_once (P:=fake.provider) (Some "prod") (Some "t2.micro")
                fake.two) as (-> & _).
    reflexivity.
  - destruct (handlers_describe_once (P:=fake.provider) None None fake.unreachable)
      as (_ & _ & Hraise).
    apply Hraise. vm_compute. reflexivity.
Defined.

Lemma create_instance_outcomes_witness :
  (services.create_instance fake.request fake.refusing).1
  = Raise (HTTPException 400 "Failed to create instance: UnauthorizedOperation")
  ∧ services.create_instance fake.request fake.two
    = services.get_instance "i-new" (launched (launch_kwargs fake.request) fake.two).
Proof.
  split.
  - destruct (create_instance_outcomes (P:=fake.provider) fake.request fake.refusing)
      as (Hclient & _).
    rewrite (Hclient "UnauthorizedOperation"); reflexivity.
  - destruct (create_instance_outcomes (P:=fake.provider) fake.request fake.two)
      as (_ & _ & Hget & _).
    eapply Hget; vm_compute; reflexivity.
Defined.

Lemma create_handler_only_400_witness :
  (ec2.create_instance fake.str fake.request fake.unreachable).1
  = Raise (HTTPException 400 "Failed to create instance: EndpointConnectionError").
Proof.
  destruct (create_handler_only_400 (P:=fake.provider) fake.str fake.request
              fake.unreachable) as (Honly & _).
  destruct ((ec2.create_instance fake.str fake.request fake.unreachable).1)
    as [i|e] eqn:He.
  - vm_compute in He. discriminate.
  - destruct (Honly e eq_refl) as (e' & He' & ->).
    vm_compute in He'. by injection He' as <-.
Defined.
